(** * OneDrive upload agent: the chunked upload of [sharepoint_agent.py]

    A shallow embedding of [simple_upload], [upload_large_file] and the
    module-level upload branch of [sharepoint_agent.py], with the
    properties of the chunked upload protocol stated over it.

    Conventions of the embedding:
    - a Python [int] is a [Z]; a Python [float] is the rational number it
      denotes (a [Q] in lowest terms), so that [a / b] on integers is the
      IEEE-754 binary64 value nearest to the quotient, ties to even, as
      CPython computes it, and [math.ceil] is the exact ceiling of that
      value;
    - [bytes] is a [list byte]; [str] is a [string];
    - an HTTP call of [requests] is answered by the remote service; the
      answers of one run are given by a [service] record, and every call
      and every Streamlit call is recorded in a trace;
    - an exception, and Streamlit's [st.stop()], end the run: they are
      outcomes of the computation, next to a returned value;
    - the folder helpers, the folder browser and [get_access_token]
      are functions of what the service, MSAL and the user give to one
      run of the script; the session state is passed from run to run. *)

From Stdlib Require Import ZArith QArith Qround List String Ascii Bool Lia.
From Stdlib.Strings Require Import Byte.
From Stdlib Require Import DecimalString.
Import ListNotations.

Local Open Scope Z_scope.

(** ** Outcomes of a Python computation *)

Inductive exn : Type :=
| KeyError (key : string)
| TypeError
| JSONDecodeError
| UnboundLocalError (name : string)
| ZeroDivisionError
| OverflowError
| RequestException.

Inductive outcome (A : Type) : Type :=
| Returned (a : A)
| Stopped
| Raised (e : exn).

Arguments Returned {A} a.
Arguments Stopped {A}.
Arguments Raised {A} e.

(** ** Python floats: true division of integers and [math.ceil] *)

Module PyFloat.

(** [pow2 n] is [2 ^ n] for [0 <= n] and [1] below. *)
Definition pow2 (n : Z) : Z := 2 ^ Z.max 0 n.

(** Nearest integer to [n / d], ties to even ([0 < d]). *)
Definition round_half_even (n d : Z) : Z :=
  let q := n / d in
  match 2 * (n mod d) ?= d with
  | Lt => q
  | Gt => q + 1
  | Eq => if Z.even q then q else q + 1
  end.

(** [floor (log2 (a / b))] for [0 < a] and [0 < b]. *)
Definition quotient_exponent (a b : Z) : Z :=
  let d := Z.log2 a - Z.log2 b in
  if b * pow2 d <=? a * pow2 (- d) then d else d - 1.

(** The dyadic rational [m * 2 ^ e], in lowest terms. *)
Definition dyadic (m e : Z) : Q :=
  Qred (Qmake (m * pow2 e) (Z.to_pos (pow2 (- e)))).

(** binary64: 53 bits of precision, least exponent of a bit -1074,
    finite values below [2 ^ 1024]. *)
Definition precision : Z := 53.
Definition emin : Z := -1074.
Definition emax : Z := 1024.

(** The binary64 value nearest to [a / b], for [0 < a] and [0 < b];
    too large a quotient is CPython's [OverflowError]. *)
Definition truediv_pos (a b : Z) : outcome Q :=
  let e := Z.max (quotient_exponent a b - (precision - 1)) emin in
  let m := round_half_even (a * pow2 (- e)) (b * pow2 e) in
  if 2 ^ emax * pow2 (- e) <=? m * pow2 e then Raised OverflowError
  else Returned (dyadic m e).

(** [a / b] on Python integers.  The sign of a zero is not kept. *)
Definition truediv (a b : Z) : outcome Q :=
  if b =? 0 then Raised ZeroDivisionError
  else if a =? 0 then Returned 0%Q
  else match truediv_pos (Z.abs a) (Z.abs b) with
       | Returned q => Returned (if Z.sgn a * Z.sgn b <? 0 then Qopp q else q)
       | Stopped => Stopped
       | Raised e => Raised e
       end.

(** [math.ceil] of a float. *)
Definition ceil (x : Q) : Z := Qceiling x.

End PyFloat.

(** ** Python built-ins used by the script *)

Module Py.

Definition len {A : Type} (l : list A) : Z := Z.of_nat (List.length l).

(** [range(n)]: the integers [0 .. n-1], empty for [n <= 0]. *)
Definition range (n : Z) : list Z := map Z.of_nat (seq 0 (Z.to_nat n)).

(** An index of a slice, brought into [0 .. n] as Python does. *)
Definition clamp (n i : Z) : Z :=
  if i <? 0 then Z.max 0 (i + n) else Z.min i n.

(** [l[start:stop]]. *)
Definition slice {A : Type} (l : list A) (start stop : Z) : list A :=
  let s := clamp (len l) start in
  let e := clamp (len l) stop in
  firstn (Z.to_nat (e - s)) (skipn (Z.to_nat s) l).

(** [str(n)] for an integer: its decimal numeral. *)
Definition str (n : Z) : string := NilZero.string_of_int (Z.to_int n).

(** [x in t] for a tuple of integers. *)
Definition in_tuple (x : Z) (t : list Z) : bool := existsb (Z.eqb x) t.

(** A [dict] with string keys, in insertion order. *)
Fixpoint dict_get {V : Type} (k : string) (d : list (string * V)) : option V :=
  match d with
  | [] => None
  | (k', v) :: d' => if String.eqb k k' then Some v else dict_get k d'
  end.

Fixpoint dict_set {V : Type} (k : string) (v : V) (d : list (string * V))
  : list (string * V) :=
  match d with
  | [] => [(k, v)]
  | (k', v') :: d' =>
      if String.eqb k k' then (k, v) :: d' else (k', v') :: dict_set k v d'
  end.

End Py.

(** ** Values, HTTP messages and the trace of a run *)

(** A decoded JSON document, which is also the Python value that
    [session["uploadUrl"]] hands to [requests.put] as its URL. *)
#[warnings="-register-all"] Inductive json : Type :=
| JNull
| JBool (b : bool)
| JNum (n : Q)
| JStr (s : string)
| JArr (items : list json)
| JObj (fields : list (string * json)).

(** [v[key]] for a string key. *)
Definition getitem (v : json) (key : string) : outcome json :=
  match v with
  | JObj fields =>
      match Py.dict_get key fields with
      | Some x => Returned x
      | None => Raised (KeyError key)
      end
  | _ => Raised TypeError
  end.

(** A response of the service: [body_json] is [None] when the body is
    not a JSON document, in which case [r.json()] raises. *)
Record response : Type := mkresponse {
  status_code : Z;
  body_json : option json
}.

(** What a call of [requests] comes back with: a response, or an
    exception of the transport. *)
Inductive reply : Type :=
| Answer (r : response)
| Failure.

Inductive http_method : Type := POST | PUT.

Inductive payload : Type :=
| JsonBody (j : json)
| DataBody (b : list byte).

Record request : Type := mkrequest {
  meth : http_method;
  url : json;
  headers : list (string * string);
  body : payload
}.

(** Calls into Streamlit.  [st_progress v] is [st.progress(v)], which
    creates the bar; [progress_progress v] is [progress.progress(v)],
    which moves it.  [st_info_file_size mb] is the [st.info] line of the
    upload branch, with the float it formats. *)
Inductive st_call : Type :=
| st_error (msg : string)
| st_success (msg : string)
| st_json (j : json)
| st_info_file_size (mb : Q)
| st_progress (v : Q)
| progress_progress (v : Q).

Inductive event : Type :=
| Sent (r : request)
| Received (r : reply)
| Ui (c : st_call).

(** The answers of the remote service in one run: to the session
    request, to the PUT of chunk [i], and to the direct content PUT. *)
Record service : Type := mkservice {
  session_reply : reply;
  chunk_reply : Z -> reply;
  content_reply : reply
}.

(** A run: the trace of what was done, and how it ended. *)
Definition run (A : Type) : Type := (list event * outcome A)%type.

Definition trace {A : Type} (m : run A) : list event := fst m.
Definition result {A : Type} (m : run A) : outcome A := snd m.

Definition ret {A : Type} (a : A) : run A := ([], Returned a).

Definition bind {A B : Type} (m : run A) (f : A -> run B) : run B :=
  match m with
  | (t, Returned a) => let (t', o) := f a in (t ++ t', o)
  | (t, Stopped) => (t, Stopped)
  | (t, Raised e) => (t, Raised e)
  end.

Notation "x <- m ;; k" := (bind m (fun x => k))
  (at level 61, m at next level, right associativity).
Notation "m ;; k" := (bind m (fun _ => k))
  (at level 61, right associativity).

(** A pure computation that may raise. *)
Definition lift {A : Type} (o : outcome A) : run A := ([], o).

Definition raise {A : Type} (e : exn) : run A := ([], Raised e).

(** A Streamlit call. *)
Definition st (c : st_call) : run unit := ([Ui c], Returned tt).

(** [st.stop()]. *)
Definition st_stop {A : Type} : run A := ([], Stopped).

(** [requests.post] and [requests.put]: the request goes out and the
    call blocks until its reply is there. *)
Definition requests (rq : request) (rp : reply) : run response :=
  ([Sent rq; Received rp],
   match rp with
   | Answer r => Returned r
   | Failure => Raised RequestException
   end).

(** [r.json()]. *)
Definition response_json (r : response) : run json :=
  match body_json r with
  | Some j => ret j
  | None => raise JSONDecodeError
  end.

(** The PUT requests of a trace, and the values the progress bar was
    moved to. *)
Fixpoint puts (t : list event) : list request :=
  match t with
  | [] => []
  | Sent rq :: t' =>
      match meth rq with
      | PUT => rq :: puts t'
      | POST => puts t'
      end
  | _ :: t' => puts t'
  end.

Fixpoint posts (t : list event) : list request :=
  match t with
  | [] => []
  | Sent rq :: t' =>
      match meth rq with
      | POST => rq :: posts t'
      | PUT => posts t'
      end
  | _ :: t' => posts t'
  end.

Fixpoint progress_values (t : list event) : list Q :=
  match t with
  | [] => []
  | Ui (progress_progress v) :: t' => v :: progress_values t'
  | _ :: t' => progress_values t'
  end.

(** What Streamlit was asked to show. *)
Fixpoint shown (t : list event) : list st_call :=
  match t with
  | [] => []
  | Ui c :: t' => c :: shown t'
  | _ :: t' => shown t'
  end.

(** ** The script *)

Module UploadedFile.

(** Streamlit's uploaded file: [size] is the length of its bytes. *)
Record t : Type := mk {
  name : string;
  type : string;
  getvalue : list byte
}.

Definition size (f : t) : Z := Py.len (getvalue f).

End UploadedFile.

Import UploadedFile.

Local Open Scope string_scope.

Definition CHUNK_SIZE : Z := 320 * 1024.

Definition graph_headers (token : string) : list (string * string) :=
  [("Authorization", "Bearer " ++ token)].

Definition simple_upload (svc : service) (token : string)
  (file : UploadedFile.t) (folder_id : string) : run response :=
  let headers := graph_headers token in
  let headers := Py.dict_set "Content-Type" (type file) headers in
  let url :=
    if String.eqb folder_id "root"
    then "https://graph.microsoft.com/v1.0/me/drive/root:/"
           ++ name file ++ ":/content"
    else "https://graph.microsoft.com/v1.0/me/drive/items/"
           ++ folder_id ++ ":/" ++ name file ++ ":/content" in
  requests (mkrequest PUT (JStr url) headers (DataBody (getvalue file)))
           (content_reply svc).

(** The arithmetic of the chunk loop, for a chunk size [cs]. *)
Definition chunk_count (size cs : Z) : outcome Z :=
  match PyFloat.truediv size cs with
  | Returned q => Returned (PyFloat.ceil q)
  | Stopped => Stopped
  | Raised e => Raised e
  end.

Definition chunk_start (cs i : Z) : Z := i * cs.

Definition chunk_end (cs size i : Z) : Z :=
  Z.min (chunk_start cs i + cs) size.

Definition chunk_headers (cs size i : Z) : list (string * string) :=
  let start := chunk_start cs i in
  let end_ := chunk_end cs size i in
  [("Content-Length", Py.str (end_ - start));
   ("Content-Range",
    "bytes " ++ Py.str start ++ "-" ++ Py.str (end_ - 1) ++ "/" ++ Py.str size)].

(** The request of chunk [i]. *)
Definition chunk_request (cs : Z) (upload_url : json) (data : list byte)
  (i : Z) : request :=
  let size := Py.len data in
  mkrequest PUT upload_url (chunk_headers cs size i)
    (DataBody (Py.slice data (chunk_start cs i) (chunk_end cs size i))).

Definition success_statuses : list Z := [200; 201; 202]%Z.

(** One turn of the loop of [upload_large_file]; it leaves [r]. *)
Definition chunk_body (cs : Z) (svc : service) (upload_url : json)
  (data : list byte) (chunks : Z) (i : Z) : run response :=
  r <- requests (chunk_request cs upload_url data i) (chunk_reply svc i) ;;
  (if negb (Py.in_tuple (status_code r) success_statuses)
   then st (st_error "Chunk upload failed") ;;
        j <- response_json r ;;
        st (st_json j) ;;
        st_stop
   else ret tt) ;;
  v <- lift (PyFloat.truediv (i + 1) chunks) ;;
  st (progress_progress v) ;;
  ret r.

(** [for i in range(chunks): ...], with the variable [r], unbound
    until the first turn has assigned it. *)
Fixpoint chunk_loop (cs : Z) (svc : service) (upload_url : json)
  (data : list byte) (chunks : Z) (indices : list Z) (r : option response)
  : run (option response) :=
  match indices with
  | [] => ret r
  | i :: rest =>
      r' <- chunk_body cs svc upload_url data chunks i ;;
      chunk_loop cs svc upload_url data chunks rest (Some r')
  end.

(** The request that opens the upload session. *)
Definition session_request (token : string) (file : UploadedFile.t)
  (folder_id : string) : request :=
  let session_url :=
    if String.eqb folder_id "root"
    then "https://graph.microsoft.com/v1.0/me/drive/root:/"
           ++ name file ++ ":/createUploadSession"
    else "https://graph.microsoft.com/v1.0/me/drive/items/"
           ++ folder_id ++ ":/" ++ name file ++ ":/createUploadSession" in
  mkrequest POST (JStr session_url) (graph_headers token)
    (JsonBody
       (JObj [("item",
               JObj [("@microsoft.graph.conflictBehavior", JStr "replace")])])).

(** [upload_large_file], for a chunk size [cs]. *)
Definition upload_large_file_with (cs : Z) (svc : service) (token : string)
  (file : UploadedFile.t) (folder_id : string) : run response :=
  resp <- requests (session_request token file folder_id)
            (session_reply svc) ;;
  session <- response_json resp ;;
  upload_url <- lift (getitem session "uploadUrl") ;;
  let data := getvalue file in
  let size := Py.len data in
  chunks <- lift (chunk_count size cs) ;;
  st (st_progress 0%Q) ;;
  r <- chunk_loop cs svc upload_url data chunks (Py.range chunks) None ;;
  match r with
  | Some r => ret r
  | None => raise (UnboundLocalError "r")
  end.

Definition upload_large_file : service -> string -> UploadedFile.t -> string
                               -> run response :=
  upload_large_file_with CHUNK_SIZE.

(** The upload branch at the end of the script (the body of
    [if uploaded_file and st.button(...)]). *)
(** The last [if] of the branch: what is shown for the response. *)
Definition show_outcome (resp : response) : run unit :=
  if Py.in_tuple (status_code resp) success_statuses
  then st (st_success "File uploaded successfully to OneDrive")
  else st (st_error "Upload failed") ;;
       j <- response_json resp ;;
       st (st_json j).

Definition upload_to_selected_folder (svc : service) (token : string)
  (uploaded_file : UploadedFile.t) (current_folder : string) : run unit :=
  size_mb <- lift (PyFloat.truediv (size uploaded_file) (1024 * 1024)) ;;
  st (st_info_file_size size_mb) ;;
  resp <- (if (size uploaded_file <=? 4 * 1024 * 1024)%Z
           then simple_upload svc token uploaded_file current_folder
           else upload_large_file svc token uploaded_file current_folder) ;;
  show_outcome resp.

Local Close Scope string_scope.

(** ** The vocabulary of the properties *)

(** The ceiling of [size / cs] in exact integer arithmetic. *)
Definition ceil_quotient (size cs : Z) : Z := (size + cs - 1) / cs.

(** The byte ranges [(start, end)] of the first [n] turns of the loop. *)
Definition chunk_ranges (cs size n : Z) : list (Z * Z) :=
  map (fun i => (chunk_start cs i, chunk_end cs size i)) (Py.range n).

(** [tiles from rs to]: the half-open ranges [rs] are non-empty, each
    starts where the one before it ends, the first at [from], and the
    last ends at [to]. *)
Fixpoint tiles (from : Z) (rs : list (Z * Z)) (to : Z) : Prop :=
  match rs with
  | [] => from = to
  | (s, e) :: rs' => s = from /\ s < e /\ tiles e rs' to
  end.

(** Every range but the last has length [cs]; the last has at most. *)
Fixpoint full_but_last (cs : Z) (rs : list (Z * Z)) : Prop :=
  match rs with
  | [] => True
  | (s, e) :: rs' =>
      match rs' with
      | [] => e - s <= cs
      | _ :: _ => e - s = cs /\ full_but_last cs rs'
      end
  end.

(** The chunk ranges of the driver partition [[0, size)]. *)
Definition exact_partition (cs size : Z) : Prop :=
  exists n,
    chunk_count size cs = Returned n /\
    n = ceil_quotient size cs /\
    tiles 0 (chunk_ranges cs size n) size /\
    full_but_last cs (chunk_ranges cs size n).

(** A reply that the chunk loop goes on after. *)
Definition succeeded (rp : reply) : bool :=
  match rp with
  | Answer r => Py.in_tuple (status_code r) success_statuses
  | Failure => false
  end.

Definition reply_status (rp : reply) : option Z :=
  match rp with
  | Answer r => Some (status_code r)
  | Failure => None
  end.

(** The upload endpoint that the session reply of [svc] holds, as
    [upload_large_file] reads it. *)
Definition session_endpoint (svc : service) : outcome json :=
  match session_reply svc with
  | Answer r =>
      match body_json r with
      | Some session => getitem session "uploadUrl"%string
      | None => Raised JSONDecodeError
      end
  | Failure => Raised RequestException
  end.

(** The float [(i + 1) / chunks]. *)
Definition progress_value (chunks i : Z) : Q :=
  match PyFloat.truediv (i + 1) chunks with
  | Returned v => v
  | _ => 0%Q
  end.

(** The events of a turn of the loop that succeeds. *)
Definition chunk_events (cs : Z) (svc : service) (upload_url : json)
  (data : list byte) (chunks i : Z) : list event :=
  [Sent (chunk_request cs upload_url data i);
   Received (chunk_reply svc i);
   Ui (progress_progress (progress_value chunks i))].

(** The events up to the loop, when the session has been opened. *)
Definition opening_events (svc : service) (token : string)
  (file : UploadedFile.t) (folder_id : string) : list event :=
  [Sent (session_request token file folder_id);
   Received (session_reply svc);
   Ui (st_progress 0%Q)].

(** Every request is answered before anything else happens. *)
Fixpoint call_return (t : list event) : Prop :=
  match t with
  | [] => True
  | Sent _ :: Received _ :: t' => call_return t'
  | Sent _ :: _ => False
  | Received _ :: _ => False
  | Ui _ :: t' => call_return t'
  end.

(** A list of floats that goes up strictly. *)
Fixpoint increasing (l : list Q) : Prop :=
  match l with
  | [] => True
  | x :: l' =>
      match l' with
      | [] => True
      | y :: _ => (x < y)%Q /\ increasing l'
      end
  end.

(** ** Inputs of the scenarios *)

Definition zero_bytes (n : Z) : list byte := repeat x00 (Z.to_nat n).

Definition file_of_size (n : Z) : UploadedFile.t :=
  UploadedFile.mk "report.bin" "application/octet-stream" (zero_bytes n).

Definition session_ok : reply :=
  Answer (mkresponse 200
            (Some (JObj [("uploadUrl"%string,
                          JStr "https://upload.example/session")]))).

Definition upload_endpoint : json := JStr "https://upload.example/session".

(** A service that accepts every chunk. *)
Definition accepting : service :=
  mkservice session_ok
    (fun _ => Answer (mkresponse 202 (Some JNull)))
    (Answer (mkresponse 201 (Some JNull))).

(** A service that answers chunk [j] with [status] and [body], and
    accepts the others. *)
Definition failing_at (j status : Z) (body : option json) : service :=
  mkservice session_ok
    (fun i => if i =? j then Answer (mkresponse status body)
              else Answer (mkresponse 202 (Some JNull)))
    (Answer (mkresponse 201 (Some JNull))).

(** A service whose session reply has no upload endpoint. *)
Definition refusing : service :=
  mkservice
    (Answer (mkresponse 401
               (Some (JObj [("error"%string, JStr "unauthorized")]))))
    (fun _ => Answer (mkresponse 202 (Some JNull)))
    (Answer (mkresponse 201 (Some JNull))).

(** ** The vocabulary of further properties *)

(** The bytes that a list of requests carries, in their order. *)
Definition put_bodies (rqs : list request) : list byte :=
  flat_map (fun rq => match body rq with
                      | DataBody b => b
                      | JsonBody _ => []
                      end) rqs.

(** ** The folder helpers and the folder browser *)

(** The exceptions of this part of the script: those of the upload
    part, and three more. *)
Inductive pyerror : Type :=
| Core (e : exn)
| HTTPError (status : Z)
| AttributeError
| StopIteration.

(** A value, or the exception raised instead. *)
Definition fallible (A : Type) : Type := (pyerror + A)%type.

Module PyVal.

(** [a == b] on decoded JSON values: numbers by value, and a boolean as
    the number it is; lists item by item; dicts key by key, whatever
    the order. *)
Fixpoint eq (a b : json) {struct a} : bool :=
  match a, b with
  | JNull, JNull => true
  | JBool x, JBool y => Bool.eqb x y
  | JBool x, JNum n => Qeq_bool (if x then 1 else 0) n
  | JNum n, JBool y => Qeq_bool n (if y then 1 else 0)
  | JNum n, JNum m => Qeq_bool n m
  | JStr s, JStr t => String.eqb s t
  | JArr l, JArr l' =>
      (fix items (l l' : list json) {struct l} : bool :=
         match l, l' with
         | [], [] => true
         | x :: r, y :: r' => eq x y && items r r'
         | _, _ => false
         end) l l'
  | JObj f, JObj f' =>
      Nat.eqb (List.length f) (List.length f') &&
      (fix fields (f : list (string * json)) {struct f} : bool :=
         match f with
         | [] => true
         | (k, v) :: r =>
             match Py.dict_get k f' with
             | Some v' => eq v v'
             | None => false
             end && fields r
         end) f
  | _, _ => false
  end.

(** [s in t] on strings: [s] occurs in [t]. *)
Definition occurs (s t : string) : bool :=
  match String.index 0 s t with
  | Some _ => true
  | None => false
  end.

(** [key in v] for a string [key]: a key of a dict, an item of a list,
    a part of a string; other values are not containers. *)
Definition contains (key : string) (v : json) : fallible bool :=
  match v with
  | JObj fields =>
      inr (match Py.dict_get key fields with
           | Some _ => true
           | None => false
           end)
  | JArr items => inr (existsb (eq (JStr key)) items)
  | JStr s => inr (occurs key s)
  | _ => inl (Core TypeError)
  end.

(** The items that [for i in v] goes through: those of a list, the
    keys of a dict, the characters of a string. *)
Definition iter (v : json) : fallible (list json) :=
  match v with
  | JArr items => inr items
  | JObj fields => inr (map (fun kv => JStr (fst kv)) fields)
  | JStr s =>
      inr (map (fun c => JStr (String c EmptyString))
             (list_ascii_of_string s))
  | _ => inl (Core TypeError)
  end.

(** [v.get(key, default)]: only a dict has the method. *)
Definition get (v : json) (key : string) (default : json) : fallible json :=
  match v with
  | JObj fields =>
      inr (match Py.dict_get key fields with
           | Some x => x
           | None => default
           end)
  | _ => inl AttributeError
  end.

(** [v[key]] for a string key, as [getitem]. *)
Definition item (v : json) (key : string) : fallible json :=
  match v with
  | JObj fields =>
      match Py.dict_get key fields with
      | Some x => inr x
      | None => inl (Core (KeyError key))
      end
  | _ => inl (Core TypeError)
  end.

(** The truth value of a string. *)
Definition truthy (s : string) : bool :=
  match s with
  | EmptyString => false
  | String _ _ => true
  end.

End PyVal.

(** The two URLs of the helpers: the first a literal, the second the
    f-string [".../items/{parent_id}/children"], kept with the value
    that fills it. *)
Inductive children_url : Type :=
| RootChildren
| ItemChildren (parent_id : json).

(** The text of the URL, for an identifier that is a string. *)
Definition url_text (u : children_url) : option string :=
  match u with
  | RootChildren =>
      Some "https://graph.microsoft.com/v1.0/me/drive/root/children"%string
  | ItemChildren (JStr parent_id) =>
      Some ("https://graph.microsoft.com/v1.0/me/drive/items/"
              ++ parent_id ++ "/children")%string
  | ItemChildren _ => None
  end.

Inductive graph_method : Type := GET | POST_JSON (payload : json).

(** A call of [requests.get] or [requests.post] by the helpers. *)
Record graph_call : Type := mkcall {
  call_method : graph_method;
  call_url : children_url;
  call_headers : list (string * string)
}.

Definition children (parent_id : json) : children_url :=
  if PyVal.eq parent_id (JStr "root") then RootChildren
  else ItemChildren parent_id.

(** [r.raise_for_status()]. *)
Definition raise_for_status (r : response) : fallible unit :=
  if (400 <=? status_code r) && (status_code r <? 600)
  then inl (HTTPError (status_code r))
  else inr tt.

(** [[i for i in items if "folder" in i]]. *)
Fixpoint keep_folders (items : list json) : fallible (list json) :=
  match items with
  | [] => inr []
  | i :: rest =>
      match PyVal.contains "folder" i with
      | inl e => inl e
      | inr keep =>
          match keep_folders rest with
          | inl e => inl e
          | inr l => inr (if keep then i :: l else l)
          end
      end
  end.

(** What comes back from a call of the helpers, the exception of the
    transport as an exception. *)
Definition answered (rp : reply) : fallible response :=
  match rp with
  | Answer r => inr r
  | Failure => inl (Core RequestException)
  end.

Definition response_value (r : response) : fallible json :=
  match body_json r with
  | Some j => inr j
  | None => inl (Core JSONDecodeError)
  end.

Definition list_folders_call (token : string) (parent_id : json)
  : graph_call :=
  mkcall GET (children parent_id) (graph_headers token).

(** [list_folders], given the reply to its request. *)
Definition list_folders (token : string) (parent_id : json) (rp : reply)
  : fallible (list json) :=
  match answered rp with
  | inl e => inl e
  | inr r =>
      match raise_for_status r with
      | inl e => inl e
      | inr _ =>
          match response_value r with
          | inl e => inl e
          | inr doc =>
              match PyVal.get doc "value" (JArr []) with
              | inl e => inl e
              | inr value =>
                  match PyVal.iter value with
                  | inl e => inl e
                  | inr items => keep_folders items
                  end
              end
          end
      end
  end.

Definition create_folder_call (token : string) (parent_id : json)
  (name : string) : graph_call :=
  mkcall
    (POST_JSON
       (JObj [("name"%string, JStr name);
              ("folder"%string, JObj []);
              ("@microsoft.graph.conflictBehavior"%string, JStr "rename")]))
    (children parent_id) (graph_headers token).

(** [create_folder], given the reply to its request. *)
Definition create_folder (token : string) (parent_id : json) (name : string)
  (rp : reply) : fallible json :=
  match answered rp with
  | inl e => inl e
  | inr r =>
      match raise_for_status r with
      | inl e => inl e
      | inr _ =>
          match response_value r with
          | inl e => inl e
          | inr doc => PyVal.item doc "id"
          end
      end
  end.

(** The two keys of [st.session_state] that the browser keeps. *)
Record session_state : Type := mkstate {
  current_folder : json;
  breadcrumb : list json
}.

(** What the user did with the widgets before a run of the script, and
    the replies to the calls of the run. *)
Record widgets : Type := mkwidgets {
  go_back : bool;
  new_folder : string;
  choice : json;
  listing : reply;
  creation : reply
}.

(** How the browser part of a run ends: [st.rerun()], an exception, or
    on to the upload part. *)
Inductive browsed : Type :=
| Rerun
| Crashed (e : pyerror)
| Continues (folders : list json).

Record browse_run : Type := mkrun {
  state_after : session_state;
  calls : list graph_call;
  ending : browsed
}.

Definition use_this_folder : string := "(Use this folder)".

(** [[f["name"] for f in folders]]. *)
Fixpoint folder_names (folders : list json) : fallible (list json) :=
  match folders with
  | [] => inr []
  | f :: rest =>
      match PyVal.item f "name" with
      | inl e => inl e
      | inr n =>
          match folder_names rest with
          | inl e => inl e
          | inr l => inr (n :: l)
          end
      end
  end.

(** [next(f for f in folders if f["name"] == choice)]. *)
Fixpoint next_named (folders : list json) (choice : json) : fallible json :=
  match folders with
  | [] => inl StopIteration
  | f :: rest =>
      match PyVal.item f "name" with
      | inl e => inl e
      | inr n => if PyVal.eq n choice then inr f else next_named rest choice
      end
  end.

(** The folder browser: the part of the script from
    [if "current_folder" not in st.session_state] to the [st.rerun()]
    of the selection, in one run. *)
Definition browse (token : string) (before : option session_state)
  (w : widgets) : browse_run :=
  let s := match before with
           | Some s => s
           | None => mkstate (JStr "root") []
           end in
  let listed := list_folders_call token (current_folder s) in
  match list_folders token (current_folder s) (listing w) with
  | inl e => mkrun s [listed] (Crashed e)
  | inr folders =>
      if match breadcrumb s with [] => false | _ :: _ => go_back w end
      then mkrun (mkstate (last (breadcrumb s) JNull)
                    (removelast (breadcrumb s)))
             [listed] Rerun
      else if PyVal.truthy (new_folder w)
      then
        let created :=
          create_folder_call token (current_folder s) (new_folder w) in
        match create_folder token (current_folder s) (new_folder w)
                (creation w) with
        | inl e => mkrun s [listed; created] (Crashed e)
        | inr new_id =>
            mkrun (mkstate new_id (breadcrumb s ++ [current_folder s]))
              [listed; created] Rerun
        end
      else
        match folder_names folders with
        | inl e => mkrun s [listed] (Crashed e)
        | inr _ =>
            if negb (PyVal.eq (choice w) (JStr use_this_folder))
            then
              match next_named folders (choice w) with
              | inl e => mkrun s [listed] (Crashed e)
              | inr chosen =>
                  let pushed := breadcrumb s ++ [current_folder s] in
                  match PyVal.item chosen "id" with
                  | inl e =>
                      mkrun (mkstate (current_folder s) pushed) [listed]
                        (Crashed e)
                  | inr id => mkrun (mkstate id pushed) [listed] Rerun
                  end
              end
            else mkrun s [listed] (Continues folders)
        end
  end.

(** The state after a series of runs, each with its widgets; a run
    that goes on to the upload part is followed by the next run all
    the same (the next action of the user). *)
Fixpoint browse_all (token : string) (before : option session_state)
  (ws : list widgets) : option session_state :=
  match ws with
  | [] => before
  | w :: ws' => browse_all token (Some (state_after (browse token before w))) ws'
  end.

(** An object with a given key. *)
Definition has_key (key : string) (v : json) : bool :=
  match v with
  | JObj fields =>
      match Py.dict_get key fields with
      | Some _ => true
      | None => false
      end
  | _ => false
  end.

Definition is_object (v : json) : bool :=
  match v with
  | JObj _ => true
  | _ => false
  end.

(** ** Authentication *)








(** * Properties *)

(** ** Floating-point division *)

Module PyFloatFacts.
Import PyFloat.

Lemma pow2_pos n : 0 < pow2 n.
Proof. unfold pow2. apply Z.pow_pos_nonneg; lia. Qed.

Lemma pow2_nonneg n : 0 <= n -> pow2 n = 2 ^ n.
Proof. intros H. unfold pow2. now rewrite Z.max_r. Qed.

Lemma pow2_nonpos n : n <= 0 -> pow2 n = 1.
Proof. intros H. unfold pow2. now rewrite Z.max_l. Qed.

Lemma pow2_succ n : 0 <= n -> pow2 (n + 1) = 2 * pow2 n.
Proof.
  intros H. rewrite !pow2_nonneg by lia.
  rewrite Z.pow_add_r by lia. lia.
Qed.

Lemma pow2_add n m : 0 <= n -> 0 <= m -> pow2 (n + m) = pow2 n * pow2 m.
Proof.
  intros Hn Hm. rewrite !pow2_nonneg by lia. now apply Z.pow_add_r.
Qed.

Lemma pow2_le n m : 0 <= n <= m -> pow2 n <= pow2 m.
Proof.
  intros H. rewrite !pow2_nonneg by lia. apply Z.pow_le_mono_r; lia.
Qed.

(** The rounded quotient is within half a unit of the quotient. *)
Lemma round_half_even_nearest n d :
  0 < d ->
  2 * n - d <= 2 * round_half_even n d * d <= 2 * n + d.
Proof.
  intros Hd. unfold round_half_even.
  pose proof (Z.div_mod n d ltac:(lia)) as E.
  pose proof (Z.mod_pos_bound n d Hd) as B.
  destruct (Z.compare_spec (2 * (n mod d)) d) as [C|C|C];
    [destruct (Z.even (n / d))| |]; nia.
Qed.

Lemma round_half_even_exact q d : 0 < d -> round_half_even (q * d) d = q.
Proof.
  intros Hd. unfold round_half_even.
  rewrite Z.div_mul, Z.mod_mul by lia.
  destruct (Z.compare_spec (2 * 0) d); try lia.
Qed.

(** [quotient_exponent a b] is the exponent of the leading bit of [a / b]. *)
Lemma quotient_exponent_spec a b :
  0 < a -> 0 < b ->
  let k := quotient_exponent a b in
  b * pow2 k <= a * pow2 (- k) /\
  a * pow2 (- (k + 1)) < b * pow2 (k + 1).
Proof.
  intros Ha Hb. unfold quotient_exponent.
  pose proof (Z.log2_spec a Ha) as [La Ua].
  pose proof (Z.log2_spec b Hb) as [Lb Ub].
  pose proof (Z.log2_nonneg a) as Na.
  pose proof (Z.log2_nonneg b) as Nb.
  rewrite Z.pow_succ_r in Ua, Ub by assumption.
  set (la := Z.log2 a) in *. set (lb := Z.log2 b) in *.
  set (d := la - lb).
  assert (0 < 2 ^ la) as Pa by (apply Z.pow_pos_nonneg; lia).
  assert (0 < 2 ^ lb) as Pb by (apply Z.pow_pos_nonneg; lia).
  destruct (Z.leb_spec (b * pow2 d) (a * pow2 (- d))) as [T|T]; cbv zeta.
  - split; [exact T|].
    destruct (Z_le_gt_dec 0 d) as [D|D].
    + rewrite (pow2_nonpos (- (d + 1))) by lia.
      rewrite pow2_succ by lia. rewrite pow2_nonneg by lia.
      assert (2 ^ la = 2 ^ d * 2 ^ lb) as E
          by (rewrite <- Z.pow_add_r by lia; f_equal; lia).
      nia.
    + rewrite (pow2_nonpos (d + 1)) by lia.
      rewrite (pow2_nonneg (- (d + 1))) by lia.
      assert (2 ^ lb = 2 ^ (- (d + 1)) * (2 * 2 ^ la)) as E.
      { rewrite <- Z.pow_succ_r by lia. rewrite <- Z.pow_add_r by lia.
        f_equal; lia. }
      assert (0 < 2 ^ (- (d + 1))) by (apply Z.pow_pos_nonneg; lia).
      nia.
  - replace (d - 1 + 1) with d by lia.
    replace (- d) with (- (d - 1 + 1)) in T by lia.
    replace (d - 1 + 1) with d in T by lia.
    split; [|exact T].
    destruct (Z_le_gt_dec 1 d) as [D|D].
    + rewrite (pow2_nonpos (- (d - 1))) by lia.
      rewrite (pow2_nonneg (d - 1)) by lia.
      assert (2 ^ la = 2 ^ (d - 1) * (2 * 2 ^ lb)) as E.
      { rewrite <- Z.pow_succ_r by lia. rewrite <- Z.pow_add_r by lia.
        f_equal; lia. }
      assert (0 < 2 ^ (d - 1)) by (apply Z.pow_pos_nonneg; lia).
      nia.
    + rewrite (pow2_nonpos (d - 1)) by lia.
      rewrite (pow2_nonneg (- (d - 1))) by lia.
      assert (2 * 2 ^ lb = 2 ^ (- (d - 1)) * (2 ^ la)) as E.
      { rewrite <- Z.pow_succ_r by lia. rewrite <- Z.pow_add_r by lia.
        f_equal; lia. }
      assert (0 < 2 ^ (- (d - 1))) by (apply Z.pow_pos_nonneg; lia).
      nia.
Qed.

(** What [truediv_pos] returns, with the bounds of its mantissa:
    [m * 2 ^ e] with [m] nearest to [a / (b * 2 ^ e)], below [2 ^ 53]
    up to rounding, and at least [2 ^ 52] when [e] is not held at
    [emin]. *)
Lemma truediv_pos_inv a b q :
  0 < a -> 0 < b ->
  truediv_pos a b = Returned q ->
  exists m e,
    q = dyadic m e /\
    e = Z.max (quotient_exponent a b - 52) emin /\
    2 * (a * pow2 (- e)) - b * pow2 e <= 2 * m * (b * pow2 e)
      <= 2 * (a * pow2 (- e)) + b * pow2 e /\
    m * pow2 e < 2 ^ emax * pow2 (- e).
Proof.
  intros Ha Hb. unfold truediv_pos, precision.
  replace (53 - 1) with 52 by reflexivity.
  set (e := Z.max (quotient_exponent a b - 52) emin).
  set (m := round_half_even (a * pow2 (- e)) (b * pow2 e)).
  destruct (Z.leb_spec (2 ^ emax * pow2 (- e)) (m * pow2 e)) as [O|O];
    [discriminate|].
  intros [= <-]. exists m, e. repeat split; try assumption;
    apply round_half_even_nearest; pose proof (pow2_pos e); nia.
Qed.

Lemma truediv_pos_returns a b :
  0 < a -> 0 < b ->
  let e := Z.max (quotient_exponent a b - 52) emin in
  let m := round_half_even (a * pow2 (- e)) (b * pow2 e) in
  m * pow2 e < 2 ^ emax * pow2 (- e) ->
  truediv_pos a b = Returned (dyadic m e).
Proof.
  intros Ha Hb e m O. unfold truediv_pos, precision.
  replace (53 - 1) with 52 by reflexivity. fold e. fold m.
  destruct (Z.leb_spec (2 ^ emax * pow2 (- e)) (m * pow2 e)); [lia|].
  reflexivity.
Qed.

(** On positive integers [truediv] is [truediv_pos]. *)
Lemma truediv_pos_eq a b :
  0 < a -> 0 < b -> truediv a b = truediv_pos a b.
Proof.
  intros Ha Hb. unfold truediv.
  destruct (Z.eqb_spec b 0); [lia|]. destruct (Z.eqb_spec a 0); [lia|].
  rewrite !Z.abs_eq by lia.
  rewrite (Z.sgn_pos a), (Z.sgn_pos b) by lia.
  now destruct (truediv_pos a b).
Qed.

(** [math.ceil] of a dyadic value, in integers. *)
Lemma ceil_dyadic m e :
  ceil (dyadic m e) = - (- (m * pow2 e) / pow2 (- e)).
Proof.
  unfold ceil, dyadic. rewrite (Qceiling_comp _ _ (Qred_correct _)).
  unfold Qceiling, Qfloor, Qopp; cbn [Qnum Qden].
  rewrite Z2Pos.id by apply pow2_pos. reflexivity.
Qed.

(** [ceil (x / p) = c] when [(c - 1) * p < x <= c * p]. *)
Lemma ceil_unique x p c :
  0 < p -> (c - 1) * p < x <= c * p -> - (- x / p) = c.
Proof.
  intros Hp H.
  assert (- x / p = - c) as ->; [|lia].
  symmetry. apply (Z.div_unique_pos _ _ (- c) (c * p - x)); lia.
Qed.

Lemma ceil_quotient_bounds a b :
  0 < b -> ((a + b - 1) / b - 1) * b < a <= (a + b - 1) / b * b.
Proof.
  intros Hb.
  pose proof (Z.div_mod (a + b - 1) b ltac:(lia)).
  pose proof (Z.mod_pos_bound (a + b - 1) b Hb). nia.
Qed.

(** Below [2 ^ 53] the float quotient has the ceiling of the exact
    quotient. *)
Lemma ceil_truediv_exact a b :
  0 < a < 2 ^ 53 -> 0 < b < 2 ^ 1075 ->
  exists q, truediv a b = Returned q /\ ceil q = (a + b - 1) / b.
Proof.
  intros [Ha Ua] [Hb Ub]. rewrite truediv_pos_eq by assumption.
  pose proof (quotient_exponent_spec a b Ha Hb) as [Lk Uk].
  pose proof (ceil_quotient_bounds a b Hb) as Hc.
  set (c := (a + b - 1) / b) in *.
  set (k := quotient_exponent a b) in *.
  assert (1 <= c) as Hc1 by nia.
  assert (c <= a) as Hca by nia.
  assert (2 ^ 53 < 2 ^ emax) as Hmax by (apply Z.pow_lt_mono_r; unfold emax; lia).
  pose proof (truediv_pos_returns a b Ha Hb) as R. cbv zeta in R. fold k in R.
  set (e := Z.max (k - 52) emin) in *.
  set (m := round_half_even (a * pow2 (- e)) (b * pow2 e)) in *.
  assert (2 * (a * pow2 (- e)) - b * pow2 e <= 2 * m * (b * pow2 e)
          <= 2 * (a * pow2 (- e)) + b * pow2 e) as Hm
      by (apply round_half_even_nearest; pose proof (pow2_pos e); nia).
  assert (e <= 0 /\ b < 2 * pow2 (- e) * (a - (c - 1) * b)) as [He Hs].
  { destruct (Z_le_gt_dec 0 k) as [K|K].
    - rewrite (pow2_nonpos (- k)), (pow2_nonneg k) in Lk by lia.
      assert (0 < 2 ^ k) by (apply Z.pow_pos_nonneg; lia).
      assert (k < 53) as K53.
      { apply (Z.pow_lt_mono_r_iff 2); [lia|lia|]. nia. }
      assert (e = k - 52) as -> by (unfold e, emin; lia).
      split; [lia|]. rewrite pow2_nonneg by lia.
      assert (2 ^ 53 = 2 ^ k * (2 * 2 ^ (- (k - 52)))) as E.
      { rewrite <- Z.pow_succ_r by lia. rewrite <- Z.pow_add_r by lia.
        f_equal; lia. }
      assert (0 < 2 ^ (- (k - 52))) by (apply Z.pow_pos_nonneg; lia).
      assert (b < 2 * 2 ^ (- (k - 52))) as B.
      { apply (Z.mul_lt_mono_pos_l (2 ^ k)); [assumption|].
        rewrite <- E. lia. }
      clear - B Hc Hb. nia.
    - split; [unfold e, emin; lia|].
      rewrite (pow2_nonpos (k + 1)) in Uk by lia.
      pose proof (pow2_pos (- (k + 1))) as T.
      assert (a < b) as Hab by (clear - Uk T Ha; nia).
      assert (c = 1) as ->.
      { destruct (Z_le_gt_dec 2 c); [exfalso; clear - Hab Hc Hb l; nia|lia]. }
      replace (a - (1 - 1) * b) with a by lia.
      destruct (Z_le_gt_dec emin (k - 52)) as [N|N].
      + assert (e = k - 52) as -> by (unfold e; lia).
        rewrite (pow2_nonpos k), (pow2_nonneg (- k)) in Lk by lia.
        rewrite pow2_nonneg by lia.
        assert (2 ^ (- (k - 52)) = 2 ^ (- k) * 2 ^ 52) as ->
            by (rewrite <- Z.pow_add_r by lia; f_equal; lia).
        assert (0 < 2 ^ (- k)) by (apply Z.pow_pos_nonneg; lia).
        assert (2 <= 2 ^ 52) as T2 by (change 2 with (2 ^ 1) at 1;
                                       apply Z.pow_le_mono_r; lia).
        clear - Lk Ha Hb T2 H. nia.
      + assert (e = emin) as -> by (unfold e; lia).
        unfold emin. rewrite pow2_nonneg by lia.
        change (- -1074) with 1074.
        replace (2 ^ 1075) with (2 * 2 ^ 1074) in Ub
            by (rewrite <- Z.pow_succ_r by lia; reflexivity).
        assert (0 < 2 ^ 1074) as T3 by (apply Z.pow_pos_nonneg; lia).
        clear - Ub Ha T3. generalize dependent (2 ^ 1074). intros; nia. }
  rewrite (pow2_nonpos e) in * by assumption.
  pose proof (pow2_pos (- e)) as Ps.
  set (s := pow2 (- e)) in *.
  assert ((c - 1) * s < m <= c * s) as Hms by nia.
  exists (dyadic m e). split.
  - apply R. nia.
  - rewrite ceil_dyadic. rewrite (pow2_nonpos e) by assumption. fold s.
    apply ceil_unique; lia.
Qed.

(** [n / n] is [1.0]. *)
Lemma truediv_self n : 0 < n -> truediv n n = Returned 1%Q.
Proof.
  intros Hn. rewrite truediv_pos_eq by assumption.
  assert (quotient_exponent n n = 0) as K.
  { unfold quotient_exponent. rewrite Z.sub_diag.
    change (pow2 0) with 1. change (pow2 (- 0)) with 1.
    destruct (Z.leb_spec (n * 1) (n * 1)); [reflexivity|lia]. }
  pose proof (truediv_pos_returns n n Hn Hn) as R. cbv zeta in R.
  rewrite K in R. change (Z.max (0 - 52) emin) with (-52) in R.
  change (pow2 (-52)) with 1 in R. change (- -52) with 52 in R.
  rewrite (Z.mul_comm n (pow2 52)), (Z.mul_1_r n), (Z.mul_1_r _) in R.
  rewrite round_half_even_exact in R by assumption.
  rewrite R; [|reflexivity].
  f_equal.
Qed.

(** A quotient of positive integers that is at most one is a float. *)
Lemma truediv_le_1_returns a b :
  0 < a <= b -> exists q, truediv a b = Returned q.
Proof.
  intros [Ha Hab]. rewrite truediv_pos_eq by lia.
  pose proof (quotient_exponent_spec a b Ha ltac:(lia)) as [Lk Uk].
  set (k := quotient_exponent a b) in *.
  assert (k <= 0) as K.
  { destruct (Z_le_gt_dec k 0) as [|K]; [assumption|exfalso].
    rewrite (pow2_nonpos (- k)) in Lk by lia.
    assert (pow2 1 <= pow2 k) as P by (apply pow2_le; lia).
    change (pow2 1) with 2 in P. clear - Lk P Ha Hab. nia. }
  eexists. apply truediv_pos_returns; try lia. fold k.
  set (e := Z.max (k - 52) emin).
  assert (e < 0) as E by (unfold e, emin; lia).
  rewrite (pow2_nonpos e) by lia.
  pose proof (round_half_even_nearest (a * pow2 (- e)) (b * 1) ltac:(lia))
    as [_ Hm].
  set (m := round_half_even (a * pow2 (- e)) (b * 1)) in *.
  pose proof (pow2_pos (- e)) as Ps.
  assert (1 < 2 ^ emax) as M by (apply Z.pow_gt_1; unfold emax; lia).
  assert (m <= pow2 (- e)) as B by (clear - Hm Ps Ha Hab; nia).
  clear - B M Ps. generalize dependent (2 ^ emax). intros; nia.
Qed.

(** Two dyadic values with negative exponents, compared. *)
Lemma dyadic_lt mx ex my ey :
  ex <= 0 -> ey <= 0 ->
  mx * pow2 (- ey) < my * pow2 (- ex) ->
  (dyadic mx ex < dyadic my ey)%Q.
Proof.
  intros Hx Hy H. unfold dyadic. rewrite !Qred_correct.
  unfold Qlt; cbn [Qnum Qden].
  rewrite !Z2Pos.id by apply pow2_pos.
  rewrite (pow2_nonpos ex), (pow2_nonpos ey) by assumption. lia.
Qed.

(** Consecutive fractions [i / n] and [(i + 1) / n] are distinct
    floats when [n] is below [2 ^ 53]. *)
Lemma truediv_succ_lt i n :
  1 <= i -> i + 1 <= n -> n < 2 ^ 53 ->
  exists x y,
    truediv i n = Returned x /\ truediv (i + 1) n = Returned y /\
    (x < y)%Q.
Proof.
  intros Hi Hin Hn.
  destruct (truediv_le_1_returns i n ltac:(lia)) as [x Ex].
  destruct (truediv_le_1_returns (i + 1) n ltac:(lia)) as [y Ey].
  exists x, y. repeat split; try assumption.
  rewrite truediv_pos_eq in Ex, Ey by lia.
  apply truediv_pos_inv in Ex as (mx & ex & -> & Eex & [_ Hmx] & _); try lia.
  apply truediv_pos_inv in Ey as (my & ey & -> & Eey & [Hmy Hmy'] & _);
    try lia.
  pose proof (quotient_exponent_spec i n ltac:(lia) ltac:(lia)) as [Lx Ux].
  pose proof (quotient_exponent_spec (i + 1) n ltac:(lia) ltac:(lia))
    as [Ly Uy].
  set (kx := quotient_exponent i n) in *.
  set (ky := quotient_exponent (i + 1) n) in *.
  assert (kx <= -1) as Kx.
  { destruct (Z_le_gt_dec kx (-1)) as [|K]; [assumption|exfalso].
    rewrite (pow2_nonpos (- kx)) in Lx by lia.
    pose proof (pow2_pos kx). clear - Lx H Hin Hi. nia. }
  assert (-53 <= kx) as Kx'.
  { destruct (Z_le_gt_dec (-53) kx) as [|K]; [assumption|exfalso].
    rewrite (pow2_nonpos (kx + 1)) in Ux by lia.
    assert (pow2 53 <= pow2 (- (kx + 1))) as P by (apply pow2_le; lia).
    change (pow2 53) with (2 ^ 53) in P.
    clear - Ux P Hn Hi Hin. generalize dependent (2 ^ 53). intros; nia. }
  assert (kx <= ky) as Kxy.
  { destruct (Z_le_gt_dec kx ky) as [|K]; [assumption|exfalso].
    rewrite (pow2_nonpos (ky + 1)) in Uy by lia.
    rewrite (pow2_nonpos kx) in Lx by lia.
    assert (pow2 (- kx) <= pow2 (- (ky + 1))) as P by (apply pow2_le; lia).
    pose proof (pow2_pos (- kx)). clear - Uy Lx P H Hi. nia. }
  assert (ky <= 0) as Ky.
  { destruct (Z_le_gt_dec ky 0) as [|K]; [assumption|exfalso].
    rewrite (pow2_nonpos (- ky)) in Ly by lia.
    assert (pow2 1 <= pow2 ky) as P by (apply pow2_le; lia).
    change (pow2 1) with 2 in P. clear - Ly P Hin Hi. nia. }
  assert (ex = kx - 52) as Ex' by (unfold emin in Eex; lia).
  assert (ey = ky - 52) as Ey' by (unfold emin in Eey; lia).
  apply dyadic_lt; try lia.
  rewrite (pow2_nonpos ex) in Hmx by lia.
  rewrite (pow2_nonpos ey) in Hmy by lia.
  (* sx = sy * t *)
  assert (pow2 (- ex) = pow2 (- ey) * pow2 (ky - kx)) as St.
  { rewrite <- pow2_add by lia. f_equal. lia. }
  pose proof (pow2_pos (ky - kx)) as Pt.
  pose proof (pow2_pos (- ey)) as Py.
  assert (pow2 53 <= pow2 (- ex)) as Sx by (apply pow2_le; lia).
  change (pow2 53) with (2 ^ 53) in Sx.
  destruct (Z.eq_dec ky 0) as [K0|K0].
  - (* the last fraction is [n / n] *)
    assert (i + 1 = n) as Elast.
    { subst ky. rewrite K0 in Ly. change (pow2 0) with 1 in Ly.
      change (pow2 (- 0)) with 1 in Ly. lia. }
    assert (my = pow2 (- ey)) as Emy.
    { rewrite (pow2_nonpos ey) in Hmy' by lia.
      clear - Hmy Hmy' Elast Hi Py. subst n.
      assert (my <= pow2 (- ey)) by nia.
      assert (pow2 (- ey) <= my) by nia. lia. }
    rewrite Emy, St. rewrite St in Hmx, Sx.
    set (sy := pow2 (- ey)) in *. set (t := pow2 (ky - kx)) in *.
    clear - Hmx Sx Hn Hi Hin Py Pt.
    generalize dependent (2 ^ 53). intros.
    assert (mx < sy * t) by nia. nia.
  - assert (pow2 53 <= pow2 (- ey)) as Sy by (apply pow2_le; lia).
    change (pow2 53) with (2 ^ 53) in Sy.
    rewrite St. rewrite St in Hmx.
    set (sy := pow2 (- ey)) in *. set (t := pow2 (ky - kx)) in *.
    clear - Hmx Hmy Sy Hn Hi Hin Py Pt.
    generalize dependent (2 ^ 53). intros.
    assert (mx < my * t) by nia. nia.
Qed.

(** The scaled quotient is below [2 ^ 53]. *)
Lemma mantissa_upper a b :
  0 < a -> 0 < b ->
  let e := Z.max (quotient_exponent a b - 52) emin in
  a * pow2 (- e) < 2 ^ 53 * (b * pow2 e).
Proof.
  intros Ha Hb e.
  pose proof (quotient_exponent_spec a b Ha Hb) as [_ Uk].
  set (k := quotient_exponent a b) in *.
  destruct (Z_le_gt_dec 0 e) as [E|E].
  - assert (e = k - 52) as Ee by (unfold e, emin in *; lia).
    rewrite (pow2_nonpos (- e)) by lia.
    rewrite (pow2_nonpos (- (k + 1))), (pow2_nonneg (k + 1)) in Uk by lia.
    rewrite (pow2_nonneg e) by lia.
    replace (k + 1) with (53 + e) in Uk by lia.
    rewrite Z.pow_add_r in Uk by lia. lia.
  - rewrite (pow2_nonpos e) by lia. rewrite (pow2_nonneg (- e)) by lia.
    destruct (Z_le_gt_dec 0 k) as [K|K].
    + assert (e = k - 52) as Ee by (unfold e, emin in *; lia).
      rewrite (pow2_nonpos (- (k + 1))), (pow2_nonneg (k + 1)) in Uk by lia.
      assert (2 ^ (k + 1) * 2 ^ (- e) = 2 ^ 53) as P
          by (rewrite <- Z.pow_add_r by lia; f_equal; lia).
      assert (0 < 2 ^ (- e)) as Q by (apply Z.pow_pos_nonneg; lia).
      clear - Uk P Q Ha. generalize dependent (2 ^ 53). intros; nia.
    + rewrite (pow2_nonpos (k + 1)), (pow2_nonneg (- (k + 1))) in Uk by lia.
      assert (2 ^ (- e) * 2 ^ (e - (k - 52))
              = 2 ^ (- (k + 1)) * 2 ^ 53) as P.
      { rewrite <- !Z.pow_add_r by (unfold e, emin in *; lia).
        f_equal; lia. }
      assert (1 <= 2 ^ (e - (k - 52))) as Q.
      { change 1 with (2 ^ 0). apply Z.pow_le_mono_r;
          unfold e, emin in *; lia. }
      assert (0 < 2 ^ (- e)) as Q' by (apply Z.pow_pos_nonneg; lia).
      assert (0 < 2 ^ 53) as Q'' by (apply Z.pow_pos_nonneg; lia).
      clear - Uk P Q Q' Q'' Ha Hb. generalize dependent (2 ^ 53).
      generalize dependent (2 ^ (e - (k - 52))).
      intros; nia.
Qed.

(** The rounded value of a quotient below [2 ^ K] is at most [2 ^ K]. *)
Lemma rounded_le_pow2 a b K :
  0 < a -> 0 < b -> 0 <= K -> a < b * 2 ^ K ->
  let e := Z.max (quotient_exponent a b - 52) emin in
  let m := round_half_even (a * pow2 (- e)) (b * pow2 e) in
  m * pow2 e <= 2 ^ K * pow2 (- e).
Proof.
  intros Ha Hb HK Hab e m.
  pose proof (quotient_exponent_spec a b Ha Hb) as [Lk _].
  pose proof (mantissa_upper a b Ha Hb) as Mu. cbv zeta in Mu. fold e in Mu.
  pose proof (pow2_pos e) as Pe. pose proof (pow2_pos (- e)) as Pe'.
  pose proof (round_half_even_nearest (a * pow2 (- e)) (b * pow2 e)
                ltac:(nia)) as [_ Hm].
  fold m in Hm.
  set (k := quotient_exponent a b) in *.
  assert (0 < 2 ^ 53) as P53 by (apply Z.pow_pos_nonneg; lia).
  assert (m <= 2 ^ 53) as Hm53.
  { clear - Hm Mu Pe Hb P53. generalize dependent (2 ^ 53). intros.
    assert (0 < b * pow2 e) by nia. nia. }
  assert (k + 1 <= K) as HkK.
  { destruct (Z_le_gt_dec 0 k) as [K0|K0]; [|lia].
    rewrite (pow2_nonpos (- k)), (pow2_nonneg k) in Lk by lia.
    assert (2 ^ k < 2 ^ K) as L by (clear - Lk Hab Hb; nia).
    apply Z.pow_lt_mono_r_iff in L; lia. }
  assert (2 ^ 53 * pow2 e <= 2 ^ K * pow2 (- e)) as Step.
  { destruct (Z_le_gt_dec e 0) as [E0|E0].
    - rewrite (pow2_nonpos e), (pow2_nonneg (- e)) by lia.
      rewrite <- Z.pow_add_r by lia. rewrite Z.mul_1_r.
      apply Z.pow_le_mono_r; unfold e, emin in *; lia.
    - rewrite (pow2_nonpos (- e)), (pow2_nonneg e) by lia.
      rewrite <- Z.pow_add_r by lia. rewrite Z.mul_1_r.
      apply Z.pow_le_mono_r; unfold e, emin in *; lia. }
  clear - Step Hm53 Pe. generalize dependent (2 ^ 53).
  generalize dependent (2 ^ K). intros; nia.
Qed.

(** A quotient below [2 ^ 1023] is a float. *)
Lemma truediv_returns a b K :
  0 < a -> 0 < b -> 0 <= K < 1024 -> a < b * 2 ^ K ->
  exists q, truediv a b = Returned q.
Proof.
  intros Ha Hb HK Hab. rewrite truediv_pos_eq by assumption.
  eexists. apply truediv_pos_returns; try assumption.
  pose proof (rounded_le_pow2 a b K Ha Hb ltac:(lia) Hab) as B.
  cbv zeta in B.
  assert (2 ^ K < 2 ^ emax) as L
      by (apply Z.pow_lt_mono_r; unfold emax; lia).
  pose proof (pow2_pos
                (- Z.max (quotient_exponent a b - 52) emin)) as P.
  clear - B L P. generalize dependent (2 ^ emax).
  generalize dependent (2 ^ K). intros; nia.
Qed.

(** The chunk count of a quotient below [2 ^ K] is at most [2 ^ K]. *)
Lemma ceil_truediv_le_pow2 a b q K :
  0 < a -> 0 < b -> 0 <= K -> a < b * 2 ^ K ->
  truediv a b = Returned q -> ceil q <= 2 ^ K.
Proof.
  intros Ha Hb HK Hab E. rewrite truediv_pos_eq in E by assumption.
  pose proof (rounded_le_pow2 a b K Ha Hb HK Hab) as Bound.
  cbv zeta in Bound.
  unfold truediv_pos, precision in E.
  replace (53 - 1) with 52 in E by reflexivity.
  set (e := Z.max (quotient_exponent a b - 52) emin) in *.
  set (m := round_half_even (a * pow2 (- e)) (b * pow2 e)) in *.
  destruct (2 ^ emax * pow2 (- e) <=? m * pow2 e); [discriminate|].
  injection E as <-.
  pose proof (pow2_pos (- e)) as Pe'.
  rewrite ceil_dyadic.
  assert (- 2 ^ K <= - (m * pow2 e) / pow2 (- e)); [|lia].
  apply Z.div_le_lower_bound; lia.
Qed.

(** The chunk count of a quotient that is at least one is at least one. *)
Lemma ceil_truediv_ge_1 a b q :
  0 < b <= a -> truediv a b = Returned q -> 1 <= ceil q.
Proof.
  intros [Hb Hab] E. rewrite truediv_pos_eq in E by lia.
  apply truediv_pos_inv in E as (m & e & -> & Ee & [Hm _] & _); try lia.
  pose proof (quotient_exponent_spec a b ltac:(lia) Hb) as [Lk Uk].
  set (k := quotient_exponent a b) in *.
  pose proof (pow2_pos e) as Pe. pose proof (pow2_pos (- e)) as Pe'.
  assert (0 <= k) as K.
  { destruct (Z_le_gt_dec 0 k) as [|K]; [assumption|exfalso].
    rewrite (pow2_nonpos (k + 1)) in Uk by lia.
    pose proof (pow2_pos (- (k + 1))) as T. clear - Uk T Hab Hb. nia. }
  assert (e = k - 52) as Ek by (unfold emin in *; lia).
  assert (b * pow2 e <= a * pow2 (- e)) as ND.
  { rewrite (pow2_nonpos (- k)) in Lk by lia.
    destruct (Z_le_gt_dec e 0) as [E0|E0].
    - rewrite (pow2_nonpos e) by lia. clear - Pe' Hab Hb. nia.
    - rewrite (pow2_nonpos (- e)) by lia.
      assert (pow2 e <= pow2 k) as T by (apply pow2_le; lia).
      clear - Lk T Hb. nia. }
  assert (1 <= m) as M by (clear - Hm ND Pe Hb; nia).
  rewrite ceil_dyadic.
  assert (- (m * pow2 e) / pow2 (- e) < 0); [|lia].
  apply Z.div_lt_upper_bound; [lia|]. clear - M Pe Pe'. nia.
Qed.

End PyFloatFacts.

(** ** Ranges *)

Lemma range_nonpos n : n <= 0 -> Py.range n = [].
Proof.
  intros H. unfold Py.range.
  replace (Z.to_nat n) with 0%nat by lia. reflexivity.
Qed.

Lemma range_succ n : 0 <= n -> Py.range (n + 1) = Py.range n ++ [n].
Proof.
  intros H. unfold Py.range.
  replace (Z.to_nat (n + 1)) with (Z.to_nat n + 1)%nat by lia.
  rewrite seq_app, map_app. cbn. now rewrite Z2Nat.id.
Qed.

Lemma in_range i n : In i (Py.range n) <-> 0 <= i < n.
Proof.
  unfold Py.range. rewrite in_map_iff. split.
  - intros (k & <- & Hk). apply in_seq in Hk. lia.
  - intros H. exists (Z.to_nat i). split; [lia|]. apply in_seq. lia.
Qed.

Lemma range_length n : List.length (Py.range n) = Z.to_nat n.
Proof. unfold Py.range. now rewrite length_map, length_seq. Qed.

Lemma range_nth n i :
  0 <= i < n -> nth_error (Py.range n) (Z.to_nat i) = Some i.
Proof.
  intros H. unfold Py.range. rewrite nth_error_map.
  rewrite nth_error_seq.
  destruct (Nat.ltb_spec (Z.to_nat i) (Z.to_nat n)); [|lia].
  cbn. f_equal. lia.
Qed.

Lemma seq_firstn k : forall a n, firstn k (seq a n) = seq a (Nat.min k n).
Proof.
  induction k as [|k IH]; intros a [|n]; cbn; trivial.
  now rewrite IH.
Qed.

Lemma range_firstn n k :
  0 <= k <= n -> firstn (Z.to_nat k) (Py.range n) = Py.range k.
Proof.
  intros H. unfold Py.range. rewrite firstn_map. f_equal.
  rewrite seq_firstn. f_equal. lia.
Qed.

(** ** The chunk loop *)

Section ChunkLoop.

Variables (cs : Z) (svc : service) (upload_url : json).
Variables (data : list byte) (chunks : Z).

Local Abbreviation turn := (chunk_body cs svc upload_url data chunks).
Local Abbreviation loop := (chunk_loop cs svc upload_url data chunks).
Local Abbreviation rq := (chunk_request cs upload_url data).
Local Abbreviation events := (chunk_events cs svc upload_url data chunks).

(** One turn, by cases on the reply. *)
Lemma chunk_body_eq i :
  turn i =
  match chunk_reply svc i with
  | Failure => ([Sent (rq i); Received Failure], Raised RequestException)
  | Answer r =>
      if Py.in_tuple (status_code r) success_statuses
      then match PyFloat.truediv (i + 1) chunks with
           | Returned v =>
               ([Sent (rq i); Received (Answer r);
                 Ui (progress_progress v)], Returned r)
           | Stopped => ([Sent (rq i); Received (Answer r)], Stopped)
           | Raised e => ([Sent (rq i); Received (Answer r)], Raised e)
           end
      else match body_json r with
           | Some j =>
               ([Sent (rq i); Received (Answer r);
                 Ui (st_error "Chunk upload failed"); Ui (st_json j)],
                Stopped)
           | None =>
               ([Sent (rq i); Received (Answer r);
                 Ui (st_error "Chunk upload failed")],
                Raised JSONDecodeError)
           end
  end.
Proof.
  unfold chunk_body, requests.
  destruct (chunk_reply svc i) as [r|]; [|reflexivity].
  cbn [bind app].
  destruct (Py.in_tuple (status_code r) success_statuses); cbn.
  - destruct (PyFloat.truediv (i + 1) chunks); reflexivity.
  - unfold response_json. destruct (body_json r); reflexivity.
Qed.

(** A turn whose reply is a success. *)
Lemma chunk_body_ok i :
  0 <= i < chunks -> succeeded (chunk_reply svc i) = true ->
  exists r, chunk_reply svc i = Answer r /\ turn i = (events i, Returned r).
Proof.
  intros Hi Hs. rewrite chunk_body_eq. unfold chunk_events, progress_value.
  destruct (chunk_reply svc i) as [r|]; [|discriminate].
  cbn [succeeded] in Hs.
  rewrite Hs. exists r. split; [reflexivity|].
  destruct (PyFloatFacts.truediv_le_1_returns (i + 1) chunks ltac:(lia))
    as [v ->].
  reflexivity.
Qed.

(** A turn whose reply is not a success ends the run. *)
Lemma chunk_body_not_ok i :
  succeeded (chunk_reply svc i) = false ->
  exists t o, turn i = (Sent (rq i) :: Received (chunk_reply svc i) :: t, o) /\
              puts t = [] /\ progress_values t = [] /\
              (forall r, o <> Returned r).
Proof.
  intros Hs. rewrite chunk_body_eq.
  destruct (chunk_reply svc i) as [r|]; cbn [succeeded] in Hs.
  - rewrite Hs.
    destruct (body_json r); do 2 eexists; repeat split; discriminate.
  - do 2 eexists; repeat split; discriminate.
Qed.

Lemma chunk_loop_cons i rest r0 :
  loop (i :: rest) r0 = (r' <- turn i ;; loop rest (Some r')).
Proof. reflexivity. Qed.

Lemma chunk_loop_app idx1 idx2 r0 :
  loop (idx1 ++ idx2) r0 = (r <- loop idx1 r0 ;; loop idx2 r).
Proof.
  revert r0. induction idx1 as [|i idx1 IH]; intros r0.
  - cbn. now destruct (loop idx2 r0).
  - cbn [app chunk_loop]. destruct (turn i) as [t [r'| |e]]; cbn; trivial.
    rewrite IH. destruct (loop idx1 (Some r')) as [t1 [r1| |e1]]; cbn; trivial.
    destruct (loop idx2 r1). now rewrite app_assoc.
Qed.

(** The loop over indices whose replies are all successes. *)
Lemma chunk_loop_ok idx r0 :
  (forall i, In i idx -> 0 <= i < chunks /\
                         succeeded (chunk_reply svc i) = true) ->
  exists r, loop idx r0 = (flat_map events idx, Returned r).
Proof.
  revert r0. induction idx as [|i idx IH]; intros r0 H.
  - exists r0. reflexivity.
  - destruct (chunk_body_ok i) as (r & Er & Et); try apply H; try now left.
    destruct (IH (Some r)) as (r1 & El).
    { intros j Hj. apply H. now right. }
    exists r1. rewrite chunk_loop_cons, Et. cbn [bind]. rewrite El.
    reflexivity.
Qed.

(** After such a loop [r] is the response to the last chunk. *)
Lemma chunk_loop_ok_last idx j r0 :
  (forall i, In i (idx ++ [j]) -> 0 <= i < chunks /\
                                  succeeded (chunk_reply svc i) = true) ->
  exists r, chunk_reply svc j = Answer r /\
            loop (idx ++ [j]) r0
            = (flat_map events (idx ++ [j]), Returned (Some r)).
Proof.
  intros H.
  destruct (chunk_loop_ok idx r0) as (r1 & E1).
  { intros i Hi. apply H. apply in_or_app. now left. }
  destruct (chunk_body_ok j) as (r & Er & Et);
    try (apply H; apply in_or_app; right; now left).
  exists r. split; [assumption|].
  rewrite chunk_loop_app, E1. cbn [bind]. rewrite chunk_loop_cons, Et.
  rewrite flat_map_app. reflexivity.
Qed.

(** The loop that meets a reply that is not a success after successes. *)
Lemma chunk_loop_not_ok idx j rest r0 :
  (forall i, In i idx -> 0 <= i < chunks /\
                         succeeded (chunk_reply svc i) = true) ->
  succeeded (chunk_reply svc j) = false ->
  loop (idx ++ j :: rest) r0
  = (flat_map events idx ++ trace (turn j),
     match result (turn j) with
     | Returned _ => Stopped
     | Stopped => Stopped
     | Raised e => Raised e
     end).
Proof.
  intros H Hj.
  destruct (chunk_loop_ok idx r0 H) as (r1 & E1).
  destruct (chunk_body_not_ok j Hj) as (t & o & Et & _ & _ & Hr).
  rewrite chunk_loop_app, E1. cbn [bind]. rewrite chunk_loop_cons.
  rewrite Et. cbn [trace result fst snd].
  destruct o as [r| |e]; [now destruct (Hr r)| |]; reflexivity.
Qed.

End ChunkLoop.

(** ** Reading a trace *)

Lemma puts_app t1 t2 : puts (t1 ++ t2) = puts t1 ++ puts t2.
Proof.
  induction t1 as [|[rq|rp|c] t1 IH]; cbn; trivial.
  destruct (meth rq); cbn; now rewrite IH.
Qed.

Lemma posts_app t1 t2 : posts (t1 ++ t2) = posts t1 ++ posts t2.
Proof.
  induction t1 as [|[rq|rp|c] t1 IH]; cbn; trivial.
  destruct (meth rq); cbn; now rewrite IH.
Qed.

Lemma progress_values_app t1 t2 :
  progress_values (t1 ++ t2) = progress_values t1 ++ progress_values t2.
Proof.
  induction t1 as [|[rq|rp|c] t1 IH]; cbn; trivial.
  destruct c; cbn; now rewrite ?IH.
Qed.

Lemma shown_app t1 t2 : shown (t1 ++ t2) = shown t1 ++ shown t2.
Proof.
  induction t1 as [|[rq|rp|c] t1 IH]; cbn; trivial. now rewrite IH.
Qed.

Lemma puts_chunk_events cs svc u data chunks idx :
  puts (flat_map (chunk_events cs svc u data chunks) idx)
  = map (chunk_request cs u data) idx.
Proof. induction idx as [|i idx IH]; cbn; now rewrite ?IH. Qed.

Lemma posts_chunk_events cs svc u data chunks idx :
  posts (flat_map (chunk_events cs svc u data chunks) idx) = [].
Proof. induction idx as [|i idx IH]; cbn; now rewrite ?IH. Qed.

Lemma progress_values_chunk_events cs svc u data chunks idx :
  progress_values (flat_map (chunk_events cs svc u data chunks) idx)
  = map (progress_value chunks) idx.
Proof. induction idx as [|i idx IH]; cbn; now rewrite ?IH. Qed.

(** ** [upload_large_file], by cases *)

Lemma upload_large_file_with_eq cs svc token file folder_id :
  upload_large_file_with cs svc token file folder_id =
  let opened := [Sent (session_request token file folder_id);
                 Received (session_reply svc)] in
  match session_endpoint svc with
  | Returned u =>
      match chunk_count (size file) cs with
      | Returned n =>
          let (t, o) :=
            chunk_loop cs svc u (getvalue file) n (Py.range n) None in
          (opening_events svc token file folder_id ++ t,
           match o with
           | Returned (Some r) => Returned r
           | Returned None => Raised (UnboundLocalError "r")
           | Stopped => Stopped
           | Raised e => Raised e
           end)
      | Stopped => (opened, Stopped)
      | Raised e => (opened, Raised e)
      end
  | Stopped => (opened, Stopped)
  | Raised e => (opened, Raised e)
  end.
Proof.
  unfold upload_large_file_with, session_endpoint, requests, size,
    opening_events.
  destruct (session_reply svc) as [resp|]; [|reflexivity].
  cbn [bind]. unfold response_json.
  destruct (body_json resp) as [session|]; [|reflexivity].
  cbn [bind ret lift app].
  destruct (getitem session "uploadUrl") as [u| |e]; [|reflexivity..].
  destruct (chunk_count (Py.len (getvalue file)) cs) as [n| |e];
    [|reflexivity..].
  cbn [bind st app].
  destruct (chunk_loop cs svc u (getvalue file) n (Py.range n) None)
    as [t [[r|]| |e]]; cbn; rewrite ?app_nil_r; reflexivity.
Qed.

(** ** The chunk ranges *)

Section Ranges.

Variables (cs size : Z).
Hypothesis cs_pos : 0 < cs.

Local Abbreviation range_of :=
  (fun i : Z => (chunk_start cs i, chunk_end cs size i)).

(** Ranges [start .. start + len - 1], when [start + len] is the
    ceiling of [size / cs]. *)
Lemma ranges_from_tile len : forall start,
  (1 <= len)%nat ->
  (Z.of_nat (start + len) - 1) * cs < size <= Z.of_nat (start + len) * cs ->
  tiles (Z.of_nat start * cs)
        (map range_of (map Z.of_nat (seq start len))) size /\
  full_but_last cs (map range_of (map Z.of_nat (seq start len))).
Proof.
  induction len as [|len IH]; intros start Hlen Hn; [lia|].
  cbn [seq map tiles full_but_last]. unfold chunk_end, chunk_start.
  destruct len as [|len].
  - cbn [seq map tiles]. rewrite Z.min_r by nia.
    repeat split; nia.
  - destruct (IH (S start)) as [Ht Hf]; [lia|nia|].
    rewrite Z.min_l by nia.
    replace (Z.of_nat start * cs + cs) with (Z.of_nat (S start) * cs) by nia.
    split; [split; [reflexivity|split; [nia|exact Ht]]|].
    cbn [seq map] in Hf |- *. split; [nia|exact Hf].
Qed.

Lemma chunk_ranges_tile n :
  1 <= n -> (n - 1) * cs < size <= n * cs ->
  tiles 0 (chunk_ranges cs size n) size /\
  full_but_last cs (chunk_ranges cs size n).
Proof.
  intros Hn H. unfold chunk_ranges, Py.range.
  apply (ranges_from_tile (Z.to_nat n) 0%nat); [lia|].
  rewrite Nat.add_0_l, Z2Nat.id by lia. assumption.
Qed.

(** A tiling ends where its last range ends. *)
Lemma tiles_last rs : forall from d,
  tiles from rs size -> rs <> [] -> snd (last rs d) = size.
Proof.
  induction rs as [|[s e] rs IH]; intros from d Ht Hne; [congruence|].
  destruct Ht as (_ & _ & Ht). destruct rs as [|p rs].
  - cbn in *. congruence.
  - change (last ((s, e) :: p :: rs) d) with (last (p :: rs) d).
    apply (IH e). assumption. discriminate.
Qed.

Lemma chunk_ranges_last n d :
  1 <= n ->
  last (chunk_ranges cs size n) d
  = (chunk_start cs (n - 1), chunk_end cs size (n - 1)).
Proof.
  intros Hn. unfold chunk_ranges.
  replace n with (n - 1 + 1) at 1 by lia.
  rewrite range_succ by lia. rewrite map_app. cbn [map].
  now rewrite last_last.
Qed.

End Ranges.

(** C1, as amended: for every [1 <= totalSize < 2 ^ 53] and every
    [1 <= chunkSize < 2 ^ 1075], the loop of [upload_large_file] makes
    [ceil (totalSize / chunkSize)] turns, and the ranges
    [start = i * chunkSize], [end = min (start + chunkSize, totalSize)]
    of its turns partition [[0, totalSize)]: they are non-empty, each
    starts where the one before it ends, the first at [0], the last ends
    at [totalSize], and every range but the last has length [chunkSize],
    the last at most [chunkSize]. *)
Theorem chunk_ranges_partition size cs :
  1 <= size < 2 ^ 53 -> 1 <= cs < 2 ^ 1075 -> exact_partition cs size.
Proof.
  intros Hs Hc. unfold exact_partition, chunk_count.
  destruct (PyFloatFacts.ceil_truediv_exact size cs) as (q & -> & Eq);
    [lia..|].
  exists (PyFloat.ceil q). rewrite Eq. fold (ceil_quotient size cs).
  pose proof (PyFloatFacts.ceil_quotient_bounds size cs ltac:(lia)) as B.
  fold (ceil_quotient size cs) in B.
  split; [reflexivity|]. split; [reflexivity|].
  apply chunk_ranges_tile; [lia| |assumption].
  destruct (Z_le_gt_dec 1 (ceil_quotient size cs)); [assumption|nia].
Qed.

Lemma chunk_ranges_partition_witness : exact_partition 327680 819200.
Proof.
  apply chunk_ranges_partition; split; reflexivity || discriminate.
Defined.

(** The float quotient of a file of 11258999068426241 bytes by
    [CHUNK_SIZE] is [2 ^ 35], one less than the number of chunks: the
    last range of the loop ends one byte before the end of the file. *)
Lemma chunk_ranges_short :
  chunk_count 11258999068426241 CHUNK_SIZE = Returned 34359738368 /\
  ceil_quotient 11258999068426241 CHUNK_SIZE = 34359738369 /\
  chunk_end CHUNK_SIZE 11258999068426241 (34359738368 - 1)
  = 11258999068426240.
Proof. repeat split; vm_compute; reflexivity. Qed.

(** C1, as stated, fails for a file of 11258999068426241 bytes. *)
Lemma chunk_ranges_partition_fails :
  ~ exact_partition CHUNK_SIZE 11258999068426241.
Proof.
  intros (n & Hn & _ & Ht & _).
  destruct chunk_ranges_short as (Hc & _ & He).
  rewrite Hc in Hn. injection Hn as <-.
  assert (chunk_ranges CHUNK_SIZE 11258999068426241 34359738368 <> []) as Ne.
  { rewrite <- length_zero_iff_nil. unfold chunk_ranges.
    rewrite length_map, range_length. lia. }
  pose proof (tiles_last _ _ _ (0, 0) Ht Ne) as L.
  rewrite chunk_ranges_last in L by lia. cbn [snd] in L.
  rewrite He in L. discriminate.
Qed.

(** ** The order of the chunk requests *)

Section ChunkOrder.

Variables (cs : Z) (svc : service) (upload_url : json).
Variables (data : list byte) (chunks : Z).

Local Abbreviation loop := (chunk_loop cs svc upload_url data chunks).
Local Abbreviation rq := (chunk_request cs upload_url data).

(** Whatever the replies, the loop sends the requests of a prefix of
    its indices, in their order, each after the replies to all the
    earlier ones were successes, and each answered before the next. *)
Lemma chunk_loop_sequential idx : forall r0,
  exists k,
    (k <= List.length idx)%nat /\
    puts (trace (loop idx r0)) = map rq (firstn k idx) /\
    (forall i, In i (firstn (Nat.pred k) idx) ->
               succeeded (chunk_reply svc i) = true) /\
    call_return (trace (loop idx r0)) /\
    posts (trace (loop idx r0)) = [].
Proof.
  induction idx as [|i idx IH]; intros r0.
  - exists 0%nat. cbn. repeat split; trivial. intros i [].
  - rewrite chunk_loop_cons, chunk_body_eq.
    destruct (chunk_reply svc i) as [r|] eqn:Er.
    + destruct (Py.in_tuple (status_code r) success_statuses) eqn:Es.
      * destruct (PyFloat.truediv (i + 1) chunks) as [v| |e].
        -- destruct (IH (Some r)) as (k & Hk & Hp & Hs & Hc & Ho).
           exists (S k). cbn [bind].
           destruct (loop idx (Some r)) as [t o]. cbn [trace fst] in *.
           cbn [app puts posts meth rq chunk_request call_return
                  List.length firstn map Nat.pred].
           rewrite Hp, Ho. repeat split; trivial; [lia|].
           intros j Hj. destruct k as [|k]; [destruct Hj|].
           cbn [firstn] in Hj. destruct Hj as [<-|Hj].
           ++ rewrite Er. exact Es.
           ++ apply Hs. exact Hj.
        -- exists 1%nat. cbn. repeat split; trivial; [lia|]. intros j [].
        -- exists 1%nat. cbn. repeat split; trivial; [lia|]. intros j [].
      * exists 1%nat.
        destruct (body_json r); cbn; repeat split; trivial; try lia;
          intros j [].
    + exists 1%nat. cbn. repeat split; trivial; [lia|]. intros j [].
Qed.

End ChunkOrder.

Lemma range_firstn_nat n k :
  (k <= Z.to_nat n)%nat -> firstn k (Py.range n) = Py.range (Z.of_nat k).
Proof.
  intros H. unfold Py.range. rewrite firstn_map, seq_firstn.
  rewrite Nat.min_l by assumption. now rewrite Nat2Z.id.
Qed.

(** ** The requests of a run of [upload_large_file] *)

Section Upload.

Variables (cs : Z) (svc : service) (token : string).
Variables (file : UploadedFile.t) (folder_id : string).

Local Abbreviation the_run :=
  (upload_large_file_with cs svc token file folder_id).

(** Without an upload endpoint the run ends after the session request. *)
Lemma upload_no_session e :
  session_endpoint svc = Raised e ->
  the_run = ([Sent (session_request token file folder_id);
              Received (session_reply svc)], Raised e).
Proof. intros E. rewrite upload_large_file_with_eq, E. reflexivity. Qed.

Lemma session_endpoint_not_stopped : session_endpoint svc <> Stopped.
Proof.
  unfold session_endpoint, getitem.
  destruct (session_reply svc) as [r|]; [|discriminate].
  destruct (body_json r) as [[| | | | |fields]|]; try discriminate.
  destruct (Py.dict_get "uploadUrl" fields); discriminate.
Qed.

(** With one, the PUT requests are those of the chunks [0 .. k-1] for
    some [k], in this order. *)
Lemma upload_puts u :
  session_endpoint svc = Returned u ->
  exists k,
    0 <= k /\
    puts (trace the_run)
    = map (chunk_request cs u (getvalue file)) (Py.range k) /\
    (forall i, 0 <= i < k - 1 -> succeeded (chunk_reply svc i) = true) /\
    call_return (trace the_run) /\
    posts (trace the_run) = [session_request token file folder_id].
Proof.
  intros E. rewrite upload_large_file_with_eq, E. cbv zeta.
  destruct (chunk_count (size file) cs) as [n| |e].
  - destruct (chunk_loop_sequential cs svc u (getvalue file) n (Py.range n)
                None) as (k & Hk & Hp & Hs & Hc & Ho).
    rewrite range_length in Hk.
    destruct (chunk_loop cs svc u (getvalue file) n (Py.range n) None)
      as [t o]. cbn [trace fst] in *.
    exists (Z.of_nat k). unfold opening_events.
    cbn [app puts posts meth session_request call_return].
    rewrite Hp, Ho, range_firstn_nat by assumption.
    repeat split; trivial; [lia|].
    intros i Hi. apply Hs. rewrite range_firstn_nat by lia.
    apply in_range. lia.
  - exists 0. cbn. repeat split; trivial; lia.
  - exists 0. cbn. repeat split; trivial; lia.
Qed.

End Upload.

(** C7: the PUT requests of a run of [upload_large_file] are those of
    the chunks [0, 1, .., k-1] for some [k], in this order in the trace;
    the replies to all of them but the last sent were successes; and in
    the trace every request is followed at once by its reply, so that no
    request goes out while another is unanswered. *)
Theorem chunk_puts_sequential svc token file folder_id :
  exists k u,
    0 <= k /\
    puts (trace (upload_large_file svc token file folder_id))
    = map (chunk_request CHUNK_SIZE u (getvalue file)) (Py.range k) /\
    (forall i, 0 <= i < k - 1 -> succeeded (chunk_reply svc i) = true) /\
    call_return (trace (upload_large_file svc token file folder_id)).
Proof.
  unfold upload_large_file.
  destruct (session_endpoint svc) as [u| |e] eqn:E.
  - destruct (upload_puts CHUNK_SIZE svc token file folder_id u E)
      as (k & H0 & Hp & Hs & Hc & _).
    exists k, u. repeat split; assumption.
  - now destruct (session_endpoint_not_stopped svc).
  - rewrite (upload_no_session _ _ _ _ _ e E).
    exists 0, JNull. cbn. repeat split; trivial; lia.
Qed.

(** ** The contents of a chunk request *)

Lemma size_file_of_size n : 0 <= n -> size (file_of_size n) = n.
Proof.
  intros H. unfold size, file_of_size, zero_bytes, Py.len.
  cbn [getvalue]. rewrite repeat_length. now apply Z2Nat.id.
Qed.

(** A slice [l[s:e]] with [0 <= s] and [0 <= e <= len(l)] holds the
    elements of [l] at the offsets [s .. e-1]. *)
Lemma slice_chunk {A : Type} (l : list A) s e :
  0 <= s -> 0 <= e <= Py.len l ->
  Py.len (Py.slice l s e) = Z.max 0 (e - s) /\
  forall k, 0 <= k < e - s ->
            nth_error (Py.slice l s e) (Z.to_nat k)
            = nth_error l (Z.to_nat (s + k)).
Proof.
  intros Hs He. unfold Py.slice, Py.clamp, Py.len in *.
  destruct (Z.ltb_spec s 0); [lia|]. destruct (Z.ltb_spec e 0); [lia|].
  rewrite (Z.min_l e) by lia. split.
  - rewrite length_firstn, length_skipn. lia.
  - intros k Hk. rewrite nth_error_firstn, nth_error_skipn.
    rewrite Z.min_l by lia.
    destruct (Nat.ltb_spec (Z.to_nat k) (Z.to_nat (e - s))); [|lia].
    f_equal. lia.
Qed.

Lemma chunk_count_scenario : chunk_count 819200 CHUNK_SIZE = Returned 3.
Proof. vm_compute. reflexivity. Qed.

Lemma chunk_requests_scenario u data :
  Py.len data = 819200 ->
  map (chunk_request CHUNK_SIZE u data) (Py.range 3)
  = [mkrequest PUT u
       [("Content-Length", "327680");
        ("Content-Range", "bytes 0-327679/819200")]%string
       (DataBody (Py.slice data 0 327680));
     mkrequest PUT u
       [("Content-Length", "327680");
        ("Content-Range", "bytes 327680-655359/819200")]%string
       (DataBody (Py.slice data 327680 655360));
     mkrequest PUT u
       [("Content-Length", "163840");
        ("Content-Range", "bytes 655360-819199/819200")]%string
       (DataBody (Py.slice data 655360 819200))].
Proof.
  intros E. change (Py.range 3) with [0; 1; 2]. unfold chunk_request.
  rewrite E. reflexivity.
Qed.

(** C3: with the upload endpoint [u] of the session, the request of
    chunk [i] in a run of [upload_large_file] is a PUT to [u] with the
    headers [Content-Length: end - start] and
    [Content-Range: bytes start-(end-1)/totalSize], in decimal, for
    [start = i * CHUNK_SIZE] and [end = min (start + CHUNK_SIZE,
    totalSize)], and its body is the slice [data[start:end]], which
    holds the bytes of the file at the offsets [start .. end-1]; for a
    file of 819200 bytes whose chunks are all accepted the run sends
    exactly three requests, with ranges [0,327680), [327680,655360),
    [655360,819200) and the [Content-Range] headers
    ["bytes 0-327679/819200"], ["bytes 327680-655359/819200"],
    ["bytes 655360-819199/819200"]. *)
Theorem chunk_put_contents svc token file folder_id u :
  session_endpoint svc = Returned u ->
  let data := getvalue file in
  let total := size file in
  let sent := puts (trace (upload_large_file svc token file folder_id)) in
  (forall i rq, 0 <= i -> nth_error sent (Z.to_nat i) = Some rq ->
     let start := i * CHUNK_SIZE in
     let end_ := Z.min (start + CHUNK_SIZE) total in
     rq = mkrequest PUT u
            [("Content-Length", Py.str (end_ - start));
             ("Content-Range",
              "bytes " ++ Py.str start ++ "-" ++ Py.str (end_ - 1)
                ++ "/" ++ Py.str total)]%string
            (DataBody (Py.slice data start end_)) /\
     Py.len (Py.slice data start end_) = Z.max 0 (end_ - start) /\
     forall k, 0 <= k < end_ - start ->
               nth_error (Py.slice data start end_) (Z.to_nat k)
               = nth_error data (Z.to_nat (start + k))) /\
  (total = 819200 ->
   (forall i, 0 <= i < 3 -> succeeded (chunk_reply svc i) = true) ->
   sent
   = [mkrequest PUT u
        [("Content-Length", "327680");
         ("Content-Range", "bytes 0-327679/819200")]%string
        (DataBody (Py.slice data 0 327680));
      mkrequest PUT u
        [("Content-Length", "327680");
         ("Content-Range", "bytes 327680-655359/819200")]%string
        (DataBody (Py.slice data 327680 655360));
      mkrequest PUT u
        [("Content-Length", "163840");
         ("Content-Range", "bytes 655360-819199/819200")]%string
        (DataBody (Py.slice data 655360 819200))]).
Proof.
  intros E data total sent. split.
  - intros i rq Hi Hn start end_.
    destruct (upload_puts CHUNK_SIZE svc token file folder_id u E)
      as (k & H0 & Hp & _).
    unfold sent, upload_large_file in Hn. rewrite Hp in Hn.
    rewrite nth_error_map in Hn.
    destruct (nth_error (Py.range k) (Z.to_nat i)) as [j|] eqn:Ej;
      [|discriminate].
    assert (i < k) as Hik.
    { assert (nth_error (Py.range k) (Z.to_nat i) <> None) as N
          by congruence.
      apply nth_error_Some in N. rewrite range_length in N. lia. }
    rewrite range_nth in Ej by lia. injection Ej as <-.
    injection Hn as <-. split; [reflexivity|].
    apply slice_chunk; [unfold start, CHUNK_SIZE; lia|].
    unfold end_, start, total, size, CHUNK_SIZE. fold data.
    split; [|apply Z.le_min_r].
    unfold Py.len. lia.
  - intros Et Hs. unfold sent, upload_large_file.
    rewrite upload_large_file_with_eq, E. cbv zeta.
    fold total. rewrite Et, chunk_count_scenario.
    destruct (chunk_loop_ok CHUNK_SIZE svc u (getvalue file) 3 (Py.range 3)
                None) as (r & ->).
    { intros i Hi. apply in_range in Hi. split; [lia|]. now apply Hs. }
    cbn [trace fst]. rewrite puts_app, puts_chunk_events.
    rewrite chunk_requests_scenario by exact Et. reflexivity.
Qed.

Lemma chunk_put_contents_witness :
  puts (trace (upload_large_file accepting "token" (file_of_size 819200)
                 "root"))
  = [mkrequest PUT upload_endpoint
       [("Content-Length", "327680");
        ("Content-Range", "bytes 0-327679/819200")]%string
       (DataBody (Py.slice (zero_bytes 819200) 0 327680));
     mkrequest PUT upload_endpoint
       [("Content-Length", "327680");
        ("Content-Range", "bytes 327680-655359/819200")]%string
       (DataBody (Py.slice (zero_bytes 819200) 327680 655360));
     mkrequest PUT upload_endpoint
       [("Content-Length", "163840");
        ("Content-Range", "bytes 655360-819199/819200")]%string
       (DataBody (Py.slice (zero_bytes 819200) 655360 819200))].
Proof.
  assert (size (file_of_size 819200) = 819200) as Hs
      by (apply size_file_of_size; lia).
  exact (proj2 (chunk_put_contents accepting "token" (file_of_size 819200)
                  "root" upload_endpoint eq_refl)
           Hs (fun i _ => eq_refl)).
Defined.

(** ** Runs that succeed, and runs that meet a failing chunk *)

Lemma shown_chunk_events cs svc u data chunks idx :
  shown (flat_map (chunk_events cs svc u data chunks) idx)
  = map (fun i => progress_progress (progress_value chunks i)) idx.
Proof. induction idx as [|i idx IH]; cbn; now rewrite ?IH. Qed.

Lemma range_split n j :
  0 <= j < n -> exists rest, Py.range n = Py.range j ++ j :: rest.
Proof.
  intros H. exists (skipn (Z.to_nat (j + 1)) (Py.range n)).
  rewrite <- (firstn_skipn (Z.to_nat (j + 1)) (Py.range n)) at 1.
  rewrite range_firstn by lia. rewrite range_succ by lia.
  now rewrite <- app_assoc.
Qed.

Section Outcomes.

Variables (svc : service) (token : string).
Variables (file : UploadedFile.t) (folder_id : string).
Variables (u : json) (n : Z).

Hypothesis session : session_endpoint svc = Returned u.
Hypothesis count : chunk_count (size file) CHUNK_SIZE = Returned n.

Local Abbreviation the_run := (upload_large_file svc token file folder_id).
Local Abbreviation events :=
  (chunk_events CHUNK_SIZE svc u (getvalue file) n).

(** The run in which every chunk is accepted. *)
Lemma upload_all_ok :
  1 <= n ->
  (forall i, 0 <= i < n -> succeeded (chunk_reply svc i) = true) ->
  exists r,
    chunk_reply svc (n - 1) = Answer r /\
    the_run = (opening_events svc token file folder_id
                 ++ flat_map events (Py.range n),
               Returned r).
Proof.
  intros Hn Hs. unfold upload_large_file.
  rewrite upload_large_file_with_eq, session, count. cbv zeta.
  assert (Py.range n = Py.range (n - 1) ++ [n - 1]) as Rn
      by (rewrite <- range_succ by lia; f_equal; lia).
  rewrite Rn.
  destruct (chunk_loop_ok_last CHUNK_SIZE svc u (getvalue file) n
              (Py.range (n - 1)) (n - 1) None) as (r & Er & ->).
  { intros i Hi. rewrite <- Rn in Hi.
    apply in_range in Hi. split; [lia|]. now apply Hs. }
  exists r. split; [assumption|reflexivity].
Qed.

(** The run in which chunk [j] is the first that is not accepted. *)
Lemma upload_chunk_refused j r :
  0 <= j < n ->
  (forall i, 0 <= i < j -> succeeded (chunk_reply svc i) = true) ->
  chunk_reply svc j = Answer r ->
  Py.in_tuple (status_code r) success_statuses = false ->
  the_run
  = (opening_events svc token file folder_id
       ++ flat_map events (Py.range j)
       ++ [Sent (chunk_request CHUNK_SIZE u (getvalue file) j);
           Received (Answer r);
           Ui (st_error "Chunk upload failed")]
       ++ match body_json r with
          | Some b => [Ui (st_json b)]
          | None => []
          end,
     match body_json r with
     | Some _ => Stopped
     | None => Raised JSONDecodeError
     end).
Proof.
  intros Hj Hs Er Es. unfold upload_large_file.
  rewrite upload_large_file_with_eq, session, count. cbv zeta.
  destruct (range_split n j Hj) as (rest & ->).
  rewrite chunk_loop_not_ok.
  - rewrite chunk_body_eq, Er, Es.
    destruct (body_json r); reflexivity.
  - intros i Hi. apply in_range in Hi. split; [lia|]. now apply Hs.
  - rewrite Er. exact Es.
Qed.

End Outcomes.

(** C4, as amended: when the session is opened, the loop has at least
    one turn and every chunk is accepted, [upload_large_file] returns
    the response to the last chunk. *)
Theorem upload_returns_last_response svc token file folder_id u n :
  session_endpoint svc = Returned u ->
  chunk_count (size file) CHUNK_SIZE = Returned n ->
  1 <= n ->
  (forall i, 0 <= i < n -> succeeded (chunk_reply svc i) = true) ->
  exists r,
    chunk_reply svc (n - 1) = Answer r /\
    result (upload_large_file svc token file folder_id) = Returned r.
Proof.
  intros E C Hn Hs.
  destruct (upload_all_ok svc token file folder_id u n E C Hn Hs)
    as (r & Er & ->).
  exists r. split; [assumption|reflexivity].
Qed.

Lemma upload_returns_last_response_witness :
  exists r,
    chunk_reply accepting (3 - 1) = Answer r /\
    result (upload_large_file accepting "token" (file_of_size 819200) "root")
    = Returned r.
Proof.
  apply (upload_returns_last_response accepting "token" (file_of_size 819200)
           "root" upload_endpoint 3).
  - reflexivity.
  - rewrite size_file_of_size by lia. exact chunk_count_scenario.
  - lia.
  - intros i _. reflexivity.
Defined.

(** C4, as stated, fails for an empty file: the loop has no turn and
    [return r] finds [r] unbound. *)
Lemma upload_empty_file_unbound :
  chunk_count (size (file_of_size 0)) CHUNK_SIZE = Returned 0 /\
  upload_large_file accepting "token" (file_of_size 0) "root"
  = ([Sent (session_request "token" (file_of_size 0) "root");
      Received session_ok;
      Ui (st_progress 0%Q)],
     Raised (UnboundLocalError "r")).
Proof. split; reflexivity. Qed.

(** C2, as amended: when chunk [j] is the first whose reply has a
    status outside [(200, 201, 202)], the run has sent the requests of
    the chunks [0 .. j], each once, and none after; it has shown the
    progress of the chunks before [j], then the message
    ["Chunk upload failed"] and, when the body of the reply is JSON,
    that body; and it ends in [st.stop()], or in the exception of
    [r.json()] when the body is not JSON.  Neither the index nor the
    status is shown. *)
Theorem chunk_failure_stops svc token file folder_id u n j r :
  session_endpoint svc = Returned u ->
  chunk_count (size file) CHUNK_SIZE = Returned n ->
  0 <= j < n ->
  (forall i, 0 <= i < j -> succeeded (chunk_reply svc i) = true) ->
  chunk_reply svc j = Answer r ->
  Py.in_tuple (status_code r) success_statuses = false ->
  let the_run := upload_large_file svc token file folder_id in
  puts (trace the_run)
  = map (chunk_request CHUNK_SIZE u (getvalue file)) (Py.range (j + 1)) /\
  shown (trace the_run)
  = st_progress 0%Q
      :: map (fun i => progress_progress (progress_value n i)) (Py.range j)
      ++ st_error "Chunk upload failed"
      :: match body_json r with
         | Some b => [st_json b]
         | None => []
         end /\
  result the_run
  = match body_json r with
    | Some _ => Stopped
    | None => Raised JSONDecodeError
    end.
Proof.
  intros E C Hj Hs Er Es the_run. unfold the_run.
  rewrite (upload_chunk_refused svc token file folder_id u n E C j r Hj Hs
             Er Es).
  cbn [trace result fst snd]. unfold opening_events.
  repeat split.
  - rewrite !puts_app, puts_chunk_events, range_succ, map_app by lia.
    cbn [puts meth session_request app]. f_equal.
    destruct (body_json r); reflexivity.
  - rewrite !shown_app, shown_chunk_events.
    cbn [shown app]. do 2 f_equal.
    destruct (body_json r); reflexivity.
Qed.

Lemma chunk_failure_stops_witness :
  let the_run :=
    upload_large_file (failing_at 1 500 (Some (JStr "busy"))) "token"
      (file_of_size 819200) "root" in
  puts (trace the_run)
  = map (chunk_request CHUNK_SIZE upload_endpoint (zero_bytes 819200))
      (Py.range (1 + 1)) /\
  shown (trace the_run)
  = st_progress 0%Q
      :: map (fun i => progress_progress (progress_value 3 i)) (Py.range 1)
      ++ [st_error "Chunk upload failed"; st_json (JStr "busy")] /\
  result the_run = Stopped.
Proof.
  apply (chunk_failure_stops (failing_at 1 500 (Some (JStr "busy"))) "token"
           (file_of_size 819200) "root" upload_endpoint 3 1
           (mkresponse 500 (Some (JStr "busy")))).
  - reflexivity.
  - rewrite size_file_of_size by lia. exact chunk_count_scenario.
  - lia.
  - intros i Hi. assert (i = 0) as -> by lia. reflexivity.
  - reflexivity.
  - reflexivity.
Defined.

(** C2, as stated, fails: a reply with status 500 and one with status
    404 to the only chunk of a one-byte file lead to the same calls of
    Streamlit and the same end of the run, in which neither the index
    of the chunk nor the status appears. *)
Lemma chunk_failure_hides_status :
  let run500 :=
    upload_large_file (failing_at 0 500 (Some (JStr "busy"))) "token"
      (file_of_size 1) "root" in
  let run404 :=
    upload_large_file (failing_at 0 404 (Some (JStr "busy"))) "token"
      (file_of_size 1) "root" in
  shown (trace run500)
  = [st_progress 0%Q; st_error "Chunk upload failed";
     st_json (JStr "busy")] /\
  shown (trace run404) = shown (trace run500) /\
  result run500 = Stopped /\
  result run404 = Stopped.
Proof. repeat split; vm_compute; reflexivity. Qed.

(** ** Progress *)

Lemma chunk_count_zero cs : chunk_count 0 cs = Returned 0 \/
                           chunk_count 0 cs = Raised ZeroDivisionError.
Proof.
  unfold chunk_count, PyFloat.truediv.
  destruct (cs =? 0); [now right|now left].
Qed.

(** A [bytes] object has fewer than [2 ^ 63] bytes, and then the loop
    has fewer than [2 ^ 53] turns. *)
Lemma chunk_count_bound size n :
  0 <= size < 2 ^ 63 ->
  chunk_count size CHUNK_SIZE = Returned n -> n < 2 ^ 53.
Proof.
  intros Hs C.
  destruct (Z.eq_dec size 0) as [->|Hne].
  - vm_compute in C. injection C as <-. reflexivity.
  - unfold chunk_count in C.
    destruct (PyFloat.truediv size CHUNK_SIZE) as [q| |e] eqn:E;
      try discriminate.
    injection C as <-.
    assert (PyFloat.ceil q <= 2 ^ 45) as B.
    { apply (PyFloatFacts.ceil_truediv_le_pow2 size CHUNK_SIZE);
        try assumption; try lia; try reflexivity.
      change (CHUNK_SIZE * 2 ^ 45) with 11529215046068469760.
      change (2 ^ 63) with 9223372036854775808 in Hs. lia. }
    change (2 ^ 45) with 35184372088832 in B.
    change (2 ^ 53) with 9007199254740992. lia.
Qed.

Lemma progress_value_spec n i :
  0 <= i < n -> PyFloat.truediv (i + 1) n = Returned (progress_value n i).
Proof.
  intros H. unfold progress_value.
  destruct (PyFloatFacts.truediv_le_1_returns (i + 1) n ltac:(lia))
    as [v ->].
  reflexivity.
Qed.

Lemma progress_value_step n i :
  0 <= i -> i + 1 < n -> n < 2 ^ 53 ->
  (progress_value n i < progress_value n (i + 1)%Z)%Q.
Proof.
  intros Hi Hin Hn.
  destruct (PyFloatFacts.truediv_succ_lt (i + 1) n) as (x & y & Ex & Ey & L);
    try lia.
  unfold progress_value. now rewrite Ex, Ey.
Qed.

Lemma progress_value_last n : 1 <= n -> progress_value n (n - 1) = 1%Q.
Proof.
  intros H. unfold progress_value.
  replace (n - 1 + 1) with n by lia.
  now rewrite PyFloatFacts.truediv_self by lia.
Qed.

Lemma increasing_from (f : Z -> Q) len : forall start,
  (forall i, Z.of_nat start <= i < Z.of_nat (start + len) - 1 ->
             (f i < f (i + 1)%Z)%Q) ->
  increasing (map f (map Z.of_nat (seq start len))).
Proof.
  induction len as [|len IH]; intros start H; [exact I|].
  cbn [seq map increasing]. destruct len as [|len]; [exact I|].
  cbn [seq map]. split.
  - replace (Z.of_nat (S start)) with (Z.of_nat start + 1) by lia.
    apply H. lia.
  - apply (IH (S start)). intros i Hi. apply H. lia.
Qed.

Lemma increasing_progress n :
  n < 2 ^ 53 -> increasing (map (progress_value n) (Py.range n)).
Proof.
  intros Hn. unfold Py.range. apply increasing_from.
  intros i Hi. apply progress_value_step; lia.
Qed.

(** C5: in a run of [upload_large_file] on a [bytes] object (which has
    fewer than [2 ^ 63] bytes) in which the loop has [n >= 1] turns and
    every chunk is accepted, the values the progress bar is moved to
    are the floats [(i + 1) / n] for [i = 0 .. n-1], in this order;
    they go up strictly, and the last is [1.0]. *)
Theorem progress_sequence svc token file folder_id u n :
  session_endpoint svc = Returned u ->
  size file < 2 ^ 63 ->
  chunk_count (size file) CHUNK_SIZE = Returned n ->
  1 <= n ->
  (forall i, 0 <= i < n -> succeeded (chunk_reply svc i) = true) ->
  let ps :=
    progress_values (trace (upload_large_file svc token file folder_id)) in
  ps = map (progress_value n) (Py.range n) /\
  (forall i, 0 <= i < n ->
             PyFloat.truediv (i + 1) n = Returned (progress_value n i)) /\
  increasing ps /\
  last ps 0%Q = 1%Q.
Proof.
  intros E Hs C Hn Hok ps.
  assert (ps = map (progress_value n) (Py.range n)) as Eps.
  { unfold ps.
    destruct (upload_all_ok svc token file folder_id u n E C Hn Hok)
      as (r & _ & ->).
    cbn [trace fst]. rewrite progress_values_app.
    now rewrite progress_values_chunk_events. }
  assert (n < 2 ^ 53) as Hn53.
  { apply (chunk_count_bound (size file)); [|assumption].
    split; [|assumption]. unfold size, Py.len. lia. }
  rewrite Eps. repeat split.
  - intros i Hi. now apply progress_value_spec.
  - now apply increasing_progress.
  - assert (Py.range n = Py.range (n - 1) ++ [n - 1]) as ->
        by (rewrite <- range_succ by lia; f_equal; lia).
    rewrite map_app. cbn [map]. rewrite last_last.
    now apply progress_value_last.
Qed.

Lemma progress_sequence_witness :
  let ps :=
    progress_values
      (trace (upload_large_file accepting "token" (file_of_size 819200)
                "root")) in
  ps = map (progress_value 3) (Py.range 3) /\
  (forall i, 0 <= i < 3 ->
             PyFloat.truediv (i + 1) 3 = Returned (progress_value 3 i)) /\
  increasing ps /\
  last ps 0%Q = 1%Q.
Proof.
  apply (progress_sequence accepting "token" (file_of_size 819200) "root"
           upload_endpoint 3).
  - reflexivity.
  - rewrite size_file_of_size by lia. reflexivity.
  - rewrite size_file_of_size by lia. exact chunk_count_scenario.
  - lia.
  - intros i _. reflexivity.
Defined.

(** The three values of the scenario. *)
Example progress_values_scenario :
  map (progress_value 3) (Py.range 3)
  = [(6004799503160661 # 18014398509481984)%Q;
     (6004799503160661 # 9007199254740992)%Q; 1%Q].
Proof. vm_compute. reflexivity. Qed.

(** ** The upload branch of the script *)

Lemma show_outcome_trace resp :
  puts (trace (show_outcome resp)) = [] /\
  posts (trace (show_outcome resp)) = [] /\
  forall x, result (show_outcome resp) <> Raised (UnboundLocalError x).
Proof.
  unfold show_outcome, response_json.
  destruct (Py.in_tuple (status_code resp) success_statuses);
    [|destruct (body_json resp)]; cbn; repeat split; discriminate.
Qed.

Lemma size_nonneg file : 0 <= size file.
Proof. unfold size, Py.len. lia. Qed.

Lemma size_mb_returns file :
  size file < 2 ^ 63 ->
  exists mb, PyFloat.truediv (size file) (1024 * 1024) = Returned mb.
Proof.
  intros H. pose proof (size_nonneg file) as N.
  destruct (Z.eq_dec (size file) 0) as [->|Hne]; [now exists 0%Q|].
  apply (PyFloatFacts.truediv_returns _ _ 44); lia.
Qed.

(** At most 4 MiB: the direct upload. *)
Lemma route_direct svc token file folder_id :
  size file <= 4 * 1024 * 1024 ->
  exists mb,
    upload_to_selected_folder svc token file folder_id
    = (st (st_info_file_size mb) ;;
       resp <- simple_upload svc token file folder_id ;;
       show_outcome resp).
Proof.
  intros H. destruct (size_mb_returns file) as [mb E].
  { change (2 ^ 63) with 9223372036854775808. lia. }
  exists mb. unfold upload_to_selected_folder. rewrite E.
  destruct (Z.leb_spec (size file) (4 * 1024 * 1024)); [|lia].
  cbn [lift bind]. now destruct (_ ;; _).
Qed.

(** More than 4 MiB: the chunked upload. *)
Lemma route_chunked svc token file folder_id :
  4 * 1024 * 1024 < size file < 2 ^ 63 ->
  exists mb,
    upload_to_selected_folder svc token file folder_id
    = (st (st_info_file_size mb) ;;
       resp <- upload_large_file svc token file folder_id ;;
       show_outcome resp).
Proof.
  intros H. destruct (size_mb_returns file) as [mb E]; [lia|].
  exists mb. unfold upload_to_selected_folder. rewrite E.
  destruct (Z.leb_spec (size file) (4 * 1024 * 1024)); [lia|].
  cbn [lift bind]. now destruct (_ ;; _).
Qed.

Lemma upload_to_selected_folder_eq svc token file folder_id :
  upload_to_selected_folder svc token file folder_id =
  match PyFloat.truediv (size file) (1024 * 1024) with
  | Returned mb =>
      (st (st_info_file_size mb) ;;
       resp <- (if size file <=? 4 * 1024 * 1024
                then simple_upload svc token file folder_id
                else upload_large_file svc token file folder_id) ;;
       show_outcome resp)
  | Stopped => ([], Stopped)
  | Raised e => ([], Raised e)
  end.
Proof.
  unfold upload_to_selected_folder.
  destruct (PyFloat.truediv (size file) (1024 * 1024)); [|reflexivity..].
  cbn [lift bind]. now destruct (_ ;; _).
Qed.

(** The exceptions of a float division. *)
Lemma truediv_raises a b e :
  PyFloat.truediv a b = Raised e ->
  e = ZeroDivisionError \/ e = OverflowError.
Proof.
  unfold PyFloat.truediv, PyFloat.truediv_pos.
  destruct (b =? 0); [intros [= <-]; now left|].
  destruct (a =? 0); [discriminate|].
  destruct (_ <=? _); [intros [= <-]; now right|discriminate].
Qed.

Lemma truediv_not_stopped a b : PyFloat.truediv a b <> Stopped.
Proof.
  unfold PyFloat.truediv, PyFloat.truediv_pos.
  destruct (b =? 0); [discriminate|].
  destruct (a =? 0); [discriminate|].
  destruct (_ <=? _); discriminate.
Qed.

(** What follows the response has no request of its own. *)
Lemma then_show_outcome (m : run response) :
  puts (trace (resp <- m ;; show_outcome resp)) = puts (trace m) /\
  posts (trace (resp <- m ;; show_outcome resp)) = posts (trace m) /\
  ((forall x, result m <> Raised (UnboundLocalError x)) ->
   forall x, result (resp <- m ;; show_outcome resp)
             <> Raised (UnboundLocalError x)).
Proof.
  destruct m as [t [r| |e]]; cbn [bind trace result fst snd].
  - destruct (show_outcome_trace r) as (Hp & Ho & Hr).
    destruct (show_outcome r) as [t' o]. cbn [trace result fst snd] in *.
    rewrite puts_app, posts_app, Hp, Ho, !app_nil_r.
    repeat split. intros _. exact Hr.
  - repeat split. discriminate.
  - repeat split. intros H x [= ->]. now apply (H x).
Qed.

Lemma after_info mb (m : run unit) :
  puts (trace (st (st_info_file_size mb) ;; m)) = puts (trace m) /\
  posts (trace (st (st_info_file_size mb) ;; m)) = posts (trace m) /\
  result (st (st_info_file_size mb) ;; m) = result m.
Proof. destruct m as [t o]. repeat split. Qed.

Lemma simple_upload_trace svc token file folder_id :
  posts (trace (simple_upload svc token file folder_id)) = [] /\
  (exists rq, puts (trace (simple_upload svc token file folder_id)) = [rq] /\
              body rq = DataBody (getvalue file)) /\
  forall x, result (simple_upload svc token file folder_id)
            <> Raised (UnboundLocalError x).
Proof.
  unfold simple_upload, requests. cbn. repeat split.
  - eexists. split; reflexivity.
  - destruct (content_reply svc); discriminate.
Qed.

Lemma upload_posts cs svc token file folder_id :
  posts (trace (upload_large_file_with cs svc token file folder_id))
  = [session_request token file folder_id].
Proof.
  destruct (session_endpoint svc) as [u| |e] eqn:E.
  - now destruct (upload_puts cs svc token file folder_id u E)
      as (k & _ & _ & _ & _ & H).
  - now destruct (session_endpoint_not_stopped svc).
  - now rewrite (upload_no_session _ _ _ _ _ e E).
Qed.

(** C6: the upload branch of the script goes by the size of the file
    alone: up to [4 * 1024 * 1024] bytes, this size included, it is
    the run of [simple_upload] (no session request, one PUT with the
    whole content); above, so from [4 * 1024 * 1024 + 1] bytes on, it
    is the run of [upload_large_file], which opens a session. *)
Theorem upload_routing svc token file folder_id :
  let the_run := upload_to_selected_folder svc token file folder_id in
  (size file <= 4 * 1024 * 1024 ->
   (exists mb,
      the_run = (st (st_info_file_size mb) ;;
                 resp <- simple_upload svc token file folder_id ;;
                 show_outcome resp)) /\
   posts (trace the_run) = [] /\
   puts (trace the_run)
   = puts (trace (simple_upload svc token file folder_id))) /\
  (4 * 1024 * 1024 < size file < 2 ^ 63 ->
   (exists mb,
      the_run = (st (st_info_file_size mb) ;;
                 resp <- upload_large_file svc token file folder_id ;;
                 show_outcome resp)) /\
   posts (trace the_run) = [session_request token file folder_id] /\
   puts (trace the_run)
   = puts (trace (upload_large_file svc token file folder_id))).
Proof.
  intros the_run. split; intros H.
  - destruct (route_direct svc token file folder_id H) as [mb E].
    split; [now exists mb|]. unfold the_run. rewrite E.
    destruct (after_info mb (resp <- simple_upload svc token file folder_id ;;
                             show_outcome resp)) as (-> & -> & _).
    destruct (then_show_outcome (simple_upload svc token file folder_id))
      as (-> & -> & _).
    split; [|reflexivity]. apply simple_upload_trace.
  - destruct (route_chunked svc token file folder_id H) as [mb E].
    split; [now exists mb|]. unfold the_run. rewrite E.
    destruct (after_info mb (resp <- upload_large_file svc token file
                                       folder_id ;;
                             show_outcome resp)) as (-> & -> & _).
    destruct (then_show_outcome (upload_large_file svc token file folder_id))
      as (-> & -> & _).
    split; [|reflexivity]. apply upload_posts.
Qed.

Lemma upload_routing_witness :
  posts (trace (upload_to_selected_folder accepting "token"
                  (file_of_size (4 * 1024 * 1024)) "root")) = [] /\
  posts (trace (upload_to_selected_folder accepting "token"
                  (file_of_size (4 * 1024 * 1024 + 1)) "root"))
  = [session_request "token" (file_of_size (4 * 1024 * 1024 + 1)) "root"].
Proof.
  assert (size (file_of_size (4 * 1024 * 1024)) <= 4 * 1024 * 1024) as H1
      by (rewrite size_file_of_size; lia).
  assert (4 * 1024 * 1024 < size (file_of_size (4 * 1024 * 1024 + 1))
          < 2 ^ 63) as H2
      by (rewrite size_file_of_size by lia; split; [lia|reflexivity]).
  split.
  - exact (proj1 (proj2 (proj1 (upload_routing accepting "token"
                                  (file_of_size (4 * 1024 * 1024)) "root")
                           H1))).
  - exact (proj1 (proj2 (proj2 (upload_routing accepting "token"
                                  (file_of_size (4 * 1024 * 1024 + 1))
                                  "root")
                           H2))).
Defined.

(** ** The loop never leaves [r] unbound once it has turned *)

Lemma session_endpoint_raises svc e :
  session_endpoint svc = Raised e ->
  e = RequestException \/ e = JSONDecodeError \/ e = TypeError \/
  e = KeyError "uploadUrl".
Proof.
  unfold session_endpoint, getitem.
  destruct (session_reply svc) as [r|]; [|intros [= <-]; auto].
  destruct (body_json r) as [[| | | | |fields]|];
    try (intros [= <-]; auto).
  destruct (Py.dict_get "uploadUrl" fields);
    [discriminate|intros [= <-]; auto].
Qed.

Lemma chunk_count_raises size cs e :
  chunk_count size cs = Raised e ->
  e = ZeroDivisionError \/ e = OverflowError.
Proof.
  unfold chunk_count.
  destruct (PyFloat.truediv size cs) eqn:E; try discriminate.
  intros [= <-]. now apply (truediv_raises size cs).
Qed.

Section Bound.

Variables (cs : Z) (svc : service) (upload_url : json).
Variables (data : list byte) (chunks : Z).

Local Abbreviation turn := (chunk_body cs svc upload_url data chunks).
Local Abbreviation loop := (chunk_loop cs svc upload_url data chunks).

Lemma chunk_body_raises i e :
  result (turn i) = Raised e ->
  e = RequestException \/ e = JSONDecodeError \/
  e = ZeroDivisionError \/ e = OverflowError.
Proof.
  rewrite chunk_body_eq.
  destruct (chunk_reply svc i) as [r|]; [|intros [= <-]; auto].
  destruct (Py.in_tuple (status_code r) success_statuses).
  - destruct (PyFloat.truediv (i + 1) chunks) eqn:E; try discriminate.
    intros [= <-]. destruct (truediv_raises _ _ _ E); auto.
  - destruct (body_json r); [discriminate|intros [= <-]; auto].
Qed.

(** The loop raises what a turn raises, and gives [r] back unbound
    only when it had no turn. *)
Lemma chunk_loop_result idx : forall r0,
  (forall e, result (loop idx r0) = Raised e ->
             e = RequestException \/ e = JSONDecodeError \/
             e = ZeroDivisionError \/ e = OverflowError) /\
  (result (loop idx r0) = Returned None -> idx = [] /\ r0 = None).
Proof.
  induction idx as [|i idx IH]; intros r0.
  - cbn. split; [discriminate|]. intros [= <-]. now split.
  - rewrite chunk_loop_cons.
    pose proof (chunk_body_raises i) as Hb.
    destruct (turn i) as [t [r| |e]]; cbn [bind result snd] in *.
    + destruct (IH (Some r)) as [He Hn].
      destruct (loop idx (Some r)) as [t' o]. cbn [result snd] in *.
      split; [exact He|]. intros H. now destruct (Hn H).
    + split; discriminate.
    + split; [|discriminate]. intros e' [= <-]. now apply Hb.
Qed.

End Bound.

(** [upload_large_file] raises [UnboundLocalError] only when its loop
    has no turn. *)
Lemma upload_unbound cs svc token file folder_id x :
  result (upload_large_file_with cs svc token file folder_id)
  = Raised (UnboundLocalError x) ->
  exists n, chunk_count (size file) cs = Returned n /\ n <= 0.
Proof.
  rewrite upload_large_file_with_eq. cbv zeta.
  destruct (session_endpoint svc) as [u| |e] eqn:E; cbn [result snd].
  - destruct (chunk_count (size file) cs) as [n| |e] eqn:C;
      cbn [result snd].
    + destruct (chunk_loop_result cs svc u (getvalue file) n (Py.range n)
                  None) as [He Hn].
      destruct (chunk_loop cs svc u (getvalue file) n (Py.range n) None)
        as [t [[r|]| |e]]; cbn [result snd] in *; try discriminate.
      * intros _. exists n. split; [reflexivity|].
        destruct (Hn eq_refl) as [Hr _].
        destruct (Z_le_gt_dec n 0) as [|Hpos]; [assumption|exfalso].
        assert (In 0 (Py.range n)) as Hin by (apply in_range; lia).
        rewrite Hr in Hin. destruct Hin.
      * intros [= ->].
        destruct (He _ eq_refl) as [|[|[|]]]; discriminate.
    + discriminate.
    + intros [= ->]. destruct (chunk_count_raises _ _ _ C); discriminate.
  - discriminate.
  - intros [= ->].
    destruct (session_endpoint_raises _ _ E) as [|[|[|]]]; discriminate.
Qed.

Lemma chunk_count_large size n :
  4 * 1024 * 1024 < size ->
  chunk_count size CHUNK_SIZE = Returned n -> 1 <= n.
Proof.
  intros H. unfold chunk_count.
  destruct (PyFloat.truediv size CHUNK_SIZE) as [q| |e] eqn:E;
    try discriminate.
  intros [= <-]. apply (PyFloatFacts.ceil_truediv_ge_1 size CHUNK_SIZE);
    [unfold CHUNK_SIZE; lia|assumption].
Qed.

(** C9: a run of the upload branch of the script that opens an upload
    session, which only [upload_large_file] does, is on a file of more
    than [4 * 1024 * 1024] bytes, for which the loop has at least one
    turn; and no run of the branch ends in the [UnboundLocalError] of
    [return r]. *)
Theorem chunked_upload_has_chunks svc token file folder_id :
  let the_run := upload_to_selected_folder svc token file folder_id in
  (posts (trace the_run) <> [] ->
   4 * 1024 * 1024 < size file /\
   forall n, chunk_count (size file) CHUNK_SIZE = Returned n -> 1 <= n) /\
  (forall x, result the_run <> Raised (UnboundLocalError x)).
Proof.
  intros the_run. unfold the_run. rewrite upload_to_selected_folder_eq.
  destruct (PyFloat.truediv (size file) (1024 * 1024)) as [mb| |e] eqn:E.
  - destruct (Z.leb_spec (size file) (4 * 1024 * 1024)) as [L|L].
    + destruct (after_info mb (resp <- simple_upload svc token file
                                         folder_id ;;
                               show_outcome resp)) as (_ & -> & ->).
      destruct (then_show_outcome (simple_upload svc token file folder_id))
        as (_ & -> & Hr).
      destruct (simple_upload_trace svc token file folder_id)
        as (-> & _ & Hs).
      split; [congruence|]. now apply Hr.
    + destruct (after_info mb (resp <- upload_large_file svc token file
                                         folder_id ;;
                               show_outcome resp)) as (_ & -> & ->).
      destruct (then_show_outcome (upload_large_file svc token file
                                     folder_id)) as (_ & -> & Hr).
      split.
      * intros _. split; [lia|]. intros n. now apply chunk_count_large.
      * apply Hr. intros x Hx.
        destruct (upload_unbound _ _ _ _ _ _ Hx) as (n & C & Hn).
        pose proof (chunk_count_large _ _ L C). lia.
  - now destruct (truediv_not_stopped _ _ E).
  - cbn. split; [congruence|]. intros x [= ->].
    destruct (truediv_raises _ _ _ E); discriminate.
Qed.

Lemma chunked_upload_has_chunks_witness :
  4 * 1024 * 1024 < size (file_of_size (4 * 1024 * 1024 + 1)) /\
  forall n,
    chunk_count (size (file_of_size (4 * 1024 * 1024 + 1))) CHUNK_SIZE
    = Returned n -> 1 <= n.
Proof.
  assert (4 * 1024 * 1024 < size (file_of_size (4 * 1024 * 1024 + 1))
          < 2 ^ 63) as H
      by (rewrite size_file_of_size by lia; split; [lia|reflexivity]).
  destruct (route_chunked accepting "token"
              (file_of_size (4 * 1024 * 1024 + 1)) "root" H) as [mb E].
  apply (proj1 (chunked_upload_has_chunks accepting "token"
                  (file_of_size (4 * 1024 * 1024 + 1)) "root")).
  rewrite E.
  rewrite (proj1 (proj2 (after_info mb _))).
  rewrite (proj1 (proj2 (then_show_outcome _))).
  unfold upload_large_file. rewrite upload_posts. discriminate.
Defined.

(** ** The session request *)

Lemma session_endpoint_returns svc u :
  session_endpoint svc = Returned u <->
  exists r fields,
    session_reply svc = Answer r /\
    body_json r = Some (JObj fields) /\
    Py.dict_get "uploadUrl" fields = Some u.
Proof.
  unfold session_endpoint, getitem. split.
  - destruct (session_reply svc) as [r|]; [|discriminate].
    destruct (body_json r) as [[| | | | |fields]|] eqn:B; try discriminate.
    destruct (Py.dict_get "uploadUrl" fields) as [v|] eqn:D;
      [|discriminate].
    intros [= <-]. exists r, fields. repeat split; assumption.
  - intros (r & fields & -> & -> & ->). reflexivity.
Qed.

(** C8: a run of [upload_large_file] starts with one POST, the only
    one of the run, whose JSON body is
    [{"item": {"@microsoft.graph.conflictBehavior": "replace"}}]; when
    the reply is a JSON object with a field ["uploadUrl"], the value of
    this field is the URL of every PUT of the run; when it is not (no
    reply, a body that is not JSON or not an object, or no such field),
    the run ends there with the exception raised, and no other request
    is sent. *)
Theorem session_negotiation svc token file folder_id :
  let the_run := upload_large_file svc token file folder_id in
  let rq := session_request token file folder_id in
  (exists t, trace the_run = Sent rq :: Received (session_reply svc) :: t) /\
  posts (trace the_run) = [rq] /\
  meth rq = POST /\
  body rq
  = JsonBody
      (JObj [("item"%string,
              JObj [("@microsoft.graph.conflictBehavior"%string,
                     JStr "replace")])]) /\
  (forall u, session_endpoint svc = Returned u ->
             forall p, In p (puts (trace the_run)) -> url p = u) /\
  (forall u, session_endpoint svc = Returned u <->
             exists r fields,
               session_reply svc = Answer r /\
               body_json r = Some (JObj fields) /\
               Py.dict_get "uploadUrl" fields = Some u) /\
  ((forall u, session_endpoint svc <> Returned u) ->
   exists e,
     the_run = ([Sent rq; Received (session_reply svc)], Raised e) /\
     (e = RequestException \/ e = JSONDecodeError \/ e = TypeError \/
      e = KeyError "uploadUrl")).
Proof.
  intros the_run rq. unfold the_run, upload_large_file.
  split; [|split; [apply upload_posts|]].
  { rewrite upload_large_file_with_eq. cbv zeta. unfold opening_events.
    destruct (session_endpoint svc); [|eexists; reflexivity..].
    destruct (chunk_count (size file) CHUNK_SIZE);
      [|eexists; reflexivity..].
    destruct (chunk_loop _ _ _ _ _ _ _). eexists; reflexivity. }
  split; [reflexivity|]. split; [reflexivity|].
  split; [|split; [apply session_endpoint_returns|]].
  - intros u E p Hp.
    destruct (upload_puts CHUNK_SIZE svc token file folder_id u E)
      as (k & _ & Hk & _).
    rewrite Hk in Hp. apply in_map_iff in Hp as (i & <- & _). reflexivity.
  - intros H. destruct (session_endpoint svc) as [u| |e] eqn:E.
    + now destruct (H u).
    + now destruct (session_endpoint_not_stopped svc).
    + exists e. split; [now apply upload_no_session|].
      now apply (session_endpoint_raises svc).
Qed.

Lemma session_negotiation_witness :
  exists e,
    upload_large_file refusing "token" (file_of_size 819200) "root"
    = ([Sent (session_request "token" (file_of_size 819200) "root");
        Received (session_reply refusing)], Raised e) /\
    (e = RequestException \/ e = JSONDecodeError \/ e = TypeError \/
     e = KeyError "uploadUrl").
Proof.
  apply (proj2 (proj2 (proj2 (proj2 (proj2 (proj2
           (session_negotiation refusing "token" (file_of_size 819200)
              "root"))))))).
  intros u. discriminate.
Defined.

(** ** Two runs *)

Section TwoRuns.

Variables (cs : Z) (svc1 svc2 : service) (upload_url : json).
Variables (data : list byte) (chunks : Z).

Hypothesis same_statuses :
  forall i, reply_status (chunk_reply svc1 i)
            = reply_status (chunk_reply svc2 i).

Lemma chunk_loop_same idx : forall r1 r2,
  puts (trace (chunk_loop cs svc1 upload_url data chunks idx r1))
  = puts (trace (chunk_loop cs svc2 upload_url data chunks idx r2)) /\
  progress_values (trace (chunk_loop cs svc1 upload_url data chunks idx r1))
  = progress_values
      (trace (chunk_loop cs svc2 upload_url data chunks idx r2)).
Proof.
  induction idx as [|i idx IH]; intros r1 r2; [now split|].
  rewrite !chunk_loop_cons, !chunk_body_eq.
  pose proof (same_statuses i) as S.
  destruct (chunk_reply svc1 i) as [a1|], (chunk_reply svc2 i) as [a2|];
    cbn [reply_status] in S; try discriminate; [|now split].
  injection S as S. rewrite <- S.
  destruct (Py.in_tuple (status_code a1) success_statuses).
  - destruct (PyFloat.truediv (i + 1) chunks) as [v| |e]; [|now split..].
    cbn [bind]. destruct (IH (Some a1) (Some a2)) as [Hp Hv].
    destruct (chunk_loop cs svc1 upload_url data chunks idx (Some a1)).
    destruct (chunk_loop cs svc2 upload_url data chunks idx (Some a2)).
    cbn [trace fst app puts progress_values meth chunk_request] in *.
    now rewrite Hp, Hv.
  - destruct (body_json a1), (body_json a2); now split.
Qed.

End TwoRuns.

(** C10: two runs of [upload_large_file] on the same file and folder,
    with sessions that give the same upload endpoint and with chunk
    replies of the same statuses, send the same PUT requests (URL,
    headers and body) in the same order and move the progress bar to
    the same values, whatever the tokens and the bodies of the
    replies. *)
Theorem upload_deterministic svc1 svc2 token1 token2 file folder_id u :
  session_endpoint svc1 = Returned u ->
  session_endpoint svc2 = Returned u ->
  (forall i, reply_status (chunk_reply svc1 i)
             = reply_status (chunk_reply svc2 i)) ->
  puts (trace (upload_large_file svc1 token1 file folder_id))
  = puts (trace (upload_large_file svc2 token2 file folder_id)) /\
  progress_values (trace (upload_large_file svc1 token1 file folder_id))
  = progress_values (trace (upload_large_file svc2 token2 file folder_id)).
Proof.
  intros E1 E2 S. unfold upload_large_file.
  rewrite !upload_large_file_with_eq, E1, E2. cbv zeta.
  destruct (chunk_count (size file) CHUNK_SIZE) as [n| |e]; [|now split..].
  destruct (chunk_loop_same CHUNK_SIZE svc1 svc2 u (getvalue file) n S
              (Py.range n) None None) as [Hp Hv].
  destruct (chunk_loop CHUNK_SIZE svc1 u (getvalue file) n (Py.range n) None).
  destruct (chunk_loop CHUNK_SIZE svc2 u (getvalue file) n (Py.range n) None).
  cbn [trace fst] in *. unfold opening_events.
  cbn [app puts progress_values meth session_request].
  now rewrite Hp, Hv.
Qed.

Lemma upload_deterministic_witness :
  puts (trace (upload_large_file accepting "token" (file_of_size 819200)
                 "root"))
  = puts (trace (upload_large_file (failing_at 1 202 None) "other"
                   (file_of_size 819200) "root")) /\
  progress_values
    (trace (upload_large_file accepting "token" (file_of_size 819200)
              "root"))
  = progress_values
      (trace (upload_large_file (failing_at 1 202 None) "other"
                (file_of_size 819200) "root")).
Proof.
  apply (upload_deterministic accepting (failing_at 1 202 None) "token"
           "other" (file_of_size 819200) "root" upload_endpoint).
  - reflexivity.
  - reflexivity.
  - intros i. cbn. now destruct (i =? 1).
Defined.

(** * Further properties of the script *)

(** ** The chunks put together *)

Lemma slice_eq {A : Type} (l : list A) s e :
  0 <= s <= e -> e <= Py.len l ->
  Py.slice l s e = firstn (Z.to_nat (e - s)) (skipn (Z.to_nat s) l).
Proof.
  intros Hs He. unfold Py.slice, Py.clamp.
  destruct (Z.ltb_spec s 0); [lia|]. destruct (Z.ltb_spec e 0); [lia|].
  now rewrite !Z.min_l by lia.
Qed.

Lemma firstn_then_firstn {A : Type} n m : forall l : list A,
  firstn n l ++ firstn m (skipn n l) = firstn (n + m) l.
Proof.
  induction n as [|n IH]; intros [|x l]; cbn; trivial.
  - now rewrite firstn_nil.
  - now rewrite IH.
Qed.

Lemma slice_app {A : Type} (l : list A) a b c :
  0 <= a <= b -> b <= c <= Py.len l ->
  Py.slice l a b ++ Py.slice l b c = Py.slice l a c.
Proof.
  intros H1 H2. rewrite !slice_eq by lia.
  replace (Z.to_nat b) with (Z.to_nat (b - a) + Z.to_nat a)%nat by lia.
  rewrite <- skipn_skipn, firstn_then_firstn. f_equal. lia.
Qed.

Lemma slice_all {A : Type} (l : list A) : Py.slice l 0 (Py.len l) = l.
Proof.
  pose proof (Nat2Z.is_nonneg (List.length l)).
  rewrite slice_eq by (unfold Py.len; lia).
  unfold Py.len. cbn [Z.to_nat skipn]. rewrite Z.sub_0_r, Nat2Z.id.
  apply firstn_all.
Qed.

Section Reassembly.

Variables (cs : Z) (u : json) (data : list byte).
Hypothesis cs_pos : 0 < cs.

Local Abbreviation total := (Py.len data).
Local Abbreviation piece :=
  (fun i : Z => Py.slice data (chunk_start cs i) (chunk_end cs total i)).

Lemma put_bodies_chunks idx :
  put_bodies (map (chunk_request cs u data) idx) = flat_map piece idx.
Proof.
  unfold put_bodies. rewrite flat_map_concat_map, map_map.
  now rewrite <- flat_map_concat_map.
Qed.

(** The slices of the chunks [start .. start + len - 1], all of which
    begin inside the file, are the slice from the first to the end of
    the last. *)
Lemma pieces_from len : forall start,
  (1 <= len)%nat ->
  (Z.of_nat (start + len) - 1) * cs < total ->
  flat_map piece (map Z.of_nat (seq start len))
  = Py.slice data (Z.of_nat start * cs)
      (Z.min (Z.of_nat (start + len) * cs) total).
Proof.
  induction len as [|len IH]; intros start Hlen Hn; [lia|].
  cbn [seq map flat_map].
  destruct len as [|len].
  - cbn [seq map flat_map]. rewrite app_nil_r.
    unfold chunk_end, chunk_start. f_equal. f_equal. lia.
  - rewrite (IH (S start)) by (lia || nia).
    unfold chunk_end, chunk_start.
    rewrite Z.min_l by nia.
    replace (Z.of_nat start * cs + cs) with (Z.of_nat (S start) * cs) by lia.
    replace (S start + S len)%nat with (start + S (S len))%nat by lia.
    apply slice_app; [nia|].
    split; [|apply Z.le_min_r]. apply Z.min_glb; nia.
Qed.

Lemma pieces_whole n :
  1 <= n -> (n - 1) * cs < total <= n * cs ->
  flat_map piece (Py.range n) = data.
Proof.
  intros Hn H. unfold Py.range.
  rewrite (pieces_from (Z.to_nat n) 0) by lia.
  rewrite Nat.add_0_l, Z2Nat.id by lia. cbn [Z.of_nat Z.mul].
  rewrite Z.min_r by lia. apply slice_all.
Qed.

End Reassembly.

(** X1: in a run of [upload_large_file] on a file of fewer than
    [2 ^ 53] bytes in which the session is opened and every chunk is
    accepted, the bodies of the PUT requests, put end to end in the
    order they were sent, are the bytes of the file. *)
Theorem upload_reassembles svc token file folder_id u :
  session_endpoint svc = Returned u ->
  size file < 2 ^ 53 ->
  (forall i, 0 <= i -> succeeded (chunk_reply svc i) = true) ->
  put_bodies (puts (trace (upload_large_file svc token file folder_id)))
  = getvalue file.
Proof.
  intros E Hs Hok. pose proof (size_nonneg file) as N.
  destruct (Z.eq_dec (size file) 0) as [Z0|Z0].
  - unfold upload_large_file.
    rewrite upload_large_file_with_eq, E, Z0. cbv zeta.
    change (chunk_count 0 CHUNK_SIZE) with (@Returned Z 0).
    cbn. unfold size, Py.len in Z0.
    destruct (getvalue file); [reflexivity|discriminate].
  - destruct (PyFloatFacts.ceil_truediv_exact (size file) CHUNK_SIZE)
      as (q & Eq & En); [lia|split; reflexivity || discriminate|].
    assert (chunk_count (size file) CHUNK_SIZE
            = Returned (PyFloat.ceil q)) as C
        by (unfold chunk_count; now rewrite Eq).
    pose proof (PyFloatFacts.ceil_quotient_bounds (size file) CHUNK_SIZE
                  ltac:(reflexivity)) as B.
    rewrite <- En in B. set (n := PyFloat.ceil q) in *.
    assert (1 <= n) as Hn.
    { destruct (Z_le_gt_dec 1 n); [assumption|]. unfold CHUNK_SIZE in B.
      nia. }
    destruct (upload_all_ok svc token file folder_id u n E C Hn)
      as (r & _ & ->); [intros i Hi; apply Hok; lia|].
    cbn [trace fst]. unfold opening_events.
    rewrite puts_app, puts_chunk_events. cbn [puts meth session_request app].
    rewrite put_bodies_chunks. apply pieces_whole; try assumption.
    reflexivity.
Qed.

Lemma upload_reassembles_witness :
  put_bodies (puts (trace (upload_large_file accepting "token"
                             (file_of_size 819200) "root")))
  = zero_bytes 819200.
Proof.
  assert (size (file_of_size 819200) < 2 ^ 53) as H
      by (rewrite size_file_of_size by lia; reflexivity).
  exact (upload_reassembles accepting "token" (file_of_size 819200) "root"
           upload_endpoint eq_refl H (fun i _ => eq_refl)).
Defined.

(** ** Every chunk request, and every move of the progress bar *)

(** A fraction [a / b] with [1 <= a <= b < 2 ^ 53] is a float in
    [(0, 1]]. *)
Lemma truediv_unit_interval a b :
  1 <= a <= b -> b < 2 ^ 53 ->
  exists q, PyFloat.truediv a b = Returned q /\ (0 < q <= 1)%Q.
Proof.
  intros [Ha Hab] Hb.
  destruct (PyFloatFacts.truediv_le_1_returns a b ltac:(lia)) as [q E].
  exists q. split; [assumption|].
  rewrite PyFloatFacts.truediv_pos_eq in E by lia.
  apply PyFloatFacts.truediv_pos_inv in E
    as (m & e & -> & Ee & [Hm Hm'] & _); try lia.
  pose proof (PyFloatFacts.quotient_exponent_spec a b ltac:(lia) ltac:(lia))
    as [Lk _].
  set (k := PyFloat.quotient_exponent a b) in *.
  assert (k <= 0) as K.
  { destruct (Z_le_gt_dec k 0) as [|K]; [assumption|exfalso].
    rewrite (PyFloatFacts.pow2_nonpos (- k)) in Lk by lia.
    assert (PyFloat.pow2 1 <= PyFloat.pow2 k) as P
        by (apply PyFloatFacts.pow2_le; lia).
    change (PyFloat.pow2 1) with 2 in P. clear - Lk P Ha Hab. nia. }
  assert (e <= -52) as E52 by (unfold PyFloat.emin in Ee; lia).
  rewrite (PyFloatFacts.pow2_nonpos e) in Hm, Hm' by lia.
  assert (PyFloat.pow2 52 <= PyFloat.pow2 (- e)) as S
      by (apply PyFloatFacts.pow2_le; lia).
  change (PyFloat.pow2 52) with (2 ^ 52) in S.
  replace (2 ^ 53) with (2 * 2 ^ 52) in Hb
      by (rewrite <- Z.pow_succ_r by lia; reflexivity).
  assert (1 <= m <= PyFloat.pow2 (- e)) as [M1 M2].
  { clear - Hm Hm' S Hb Ha Hab. generalize dependent (2 ^ 52).
    generalize dependent (PyFloat.pow2 (- e)). intros s Hm Hm' p Hb S.
    split; nia. }
  unfold PyFloat.dyadic. rewrite Qred_correct.
  unfold Qlt, Qle; cbn [Qnum Qden].
  rewrite Z2Pos.id by apply PyFloatFacts.pow2_pos.
  rewrite (PyFloatFacts.pow2_nonpos e) by lia. lia.
Qed.

Section Prefix.

Variables (cs : Z) (svc : service) (upload_url : json).
Variables (data : list byte) (chunks : Z).

Local Abbreviation loop := (chunk_loop cs svc upload_url data chunks).

(** The requests sent and the progress shown are those of prefixes of
    the indices of the loop. *)
Lemma chunk_loop_prefix idx : forall r0,
  exists k k',
    (k' <= k <= List.length idx)%nat /\
    puts (trace (loop idx r0))
    = map (chunk_request cs upload_url data) (firstn k idx) /\
    progress_values (trace (loop idx r0))
    = map (progress_value chunks) (firstn k' idx).
Proof.
  induction idx as [|i idx IH]; intros r0.
  - exists 0%nat, 0%nat. cbn. repeat split; lia.
  - rewrite chunk_loop_cons, chunk_body_eq.
    destruct (chunk_reply svc i) as [r|].
    + destruct (Py.in_tuple (status_code r) success_statuses).
      * destruct (PyFloat.truediv (i + 1) chunks) as [v| |e] eqn:E.
        -- destruct (IH (Some r)) as (k & k' & Hk & Hp & Hv).
           assert (progress_value chunks i = v) as Pv
               by (unfold progress_value; now rewrite E).
           exists (S k), (S k'). cbn [bind].
           destruct (loop idx (Some r)) as [t o]. cbn [trace fst] in *.
           cbn [app puts progress_values meth chunk_request
                  List.length firstn map].
           rewrite Hp, Hv, Pv. repeat split; lia.
        -- exists 1%nat, 0%nat. cbn. repeat split; lia.
        -- exists 1%nat, 0%nat. cbn. repeat split; lia.
      * exists 1%nat, 0%nat.
        destruct (body_json r); cbn; repeat split; lia.
    + exists 1%nat, 0%nat. cbn. repeat split; lia.
Qed.

End Prefix.

Lemma upload_prefix svc token file folder_id :
  exists u n k k',
    0 <= k' <= k /\ k <= Z.max 0 n /\
    (0 < k -> chunk_count (size file) CHUNK_SIZE = Returned n) /\
    puts (trace (upload_large_file svc token file folder_id))
    = map (chunk_request CHUNK_SIZE u (getvalue file)) (Py.range k) /\
    progress_values (trace (upload_large_file svc token file folder_id))
    = map (progress_value n) (Py.range k').
Proof.
  unfold upload_large_file. rewrite upload_large_file_with_eq. cbv zeta.
  destruct (session_endpoint svc) as [u| |e];
    [|exists JNull, 0, 0, 0; cbn; repeat split; lia..].
  destruct (chunk_count (size file) CHUNK_SIZE) as [n| |e];
    [|exists JNull, 0, 0, 0; cbn; repeat split; lia..].
  destruct (chunk_loop_prefix CHUNK_SIZE svc u (getvalue file) n
              (Py.range n) None) as (k & k' & Hk & Hp & Hv).
  rewrite range_length in Hk.
  destruct (chunk_loop CHUNK_SIZE svc u (getvalue file) n (Py.range n) None)
    as [t o]. cbn [trace fst] in *.
  exists u, n, (Z.of_nat k), (Z.of_nat k'). unfold opening_events.
  cbn [app puts progress_values meth session_request].
  rewrite Hp, Hv, !range_firstn_nat by lia.
  repeat split; lia.
Qed.

(** X2: every PUT request of a run of [upload_large_file] on a file of
    fewer than [2 ^ 53] bytes carries at least one byte and at most
    [CHUNK_SIZE] bytes, and its [Content-Length] header is the decimal
    numeral of the number of bytes it carries. *)
Theorem chunk_request_lengths svc token file folder_id rq :
  size file < 2 ^ 53 ->
  In rq (puts (trace (upload_large_file svc token file folder_id))) ->
  exists b,
    body rq = DataBody b /\
    1 <= Py.len b <= CHUNK_SIZE /\
    Py.dict_get "Content-Length" (headers rq) = Some (Py.str (Py.len b)).
Proof.
  intros Hs Hin.
  destruct (upload_prefix svc token file folder_id)
    as (u & n & k & k' & Hk & Hkn & C & Hp & _).
  rewrite Hp in Hin. apply in_map_iff in Hin as (i & <- & Hi).
  apply in_range in Hi. specialize (C ltac:(lia)).
  pose proof (size_nonneg file) as N.
  assert (size file <> 0) as Z0.
  { intros Z0. rewrite Z0 in C. vm_compute in C. injection C as <-. lia. }
  destruct (PyFloatFacts.ceil_truediv_exact (size file) CHUNK_SIZE)
    as (q & Eq & En); [lia|split; reflexivity || discriminate|].
  unfold chunk_count in C. rewrite Eq in C. injection C as C.
  pose proof (PyFloatFacts.ceil_quotient_bounds (size file) CHUNK_SIZE
                ltac:(reflexivity)) as B.
  rewrite <- En, C in B.
  set (start := chunk_start CHUNK_SIZE i).
  set (end_ := chunk_end CHUNK_SIZE (size file) i).
  assert (0 <= start < end_ /\ end_ - start <= CHUNK_SIZE /\
          end_ <= size file) as (H1 & H2 & H3).
  { unfold start, end_, chunk_end, chunk_start, CHUNK_SIZE in *. lia. }
  destruct (slice_chunk (getvalue file) start end_) as [L _];
    [lia|unfold size in *; lia|].
  exists (Py.slice (getvalue file) start end_).
  split; [reflexivity|]. rewrite L. split; [lia|].
  cbn. rewrite Z.max_r by lia. reflexivity.
Qed.

Lemma chunk_request_lengths_witness :
  exists b,
    body (chunk_request CHUNK_SIZE upload_endpoint (zero_bytes 819200) 2)
    = DataBody b /\
    1 <= Py.len b <= CHUNK_SIZE /\
    Py.dict_get "Content-Length"
      (headers (chunk_request CHUNK_SIZE upload_endpoint
                  (zero_bytes 819200) 2))
    = Some (Py.str (Py.len b)).
Proof.
  assert (size (file_of_size 819200) = 819200) as Hs
      by (apply size_file_of_size; lia).
  assert (size (file_of_size 819200) < 2 ^ 53) as H
      by (rewrite Hs; reflexivity).
  assert (chunk_count (size (file_of_size 819200)) CHUNK_SIZE = Returned 3)
    as C by (rewrite Hs; exact chunk_count_scenario).
  apply (chunk_request_lengths accepting "token" (file_of_size 819200)
           "root" _ H).
  destruct (upload_all_ok accepting "token" (file_of_size 819200) "root"
              upload_endpoint 3 eq_refl C ltac:(lia) (fun i _ => eq_refl))
    as (r & _ & ->).
  cbn [trace fst]. unfold opening_events.
  rewrite puts_app, puts_chunk_events.
  cbn [puts meth session_request app].
  change (Py.range 3) with [0; 1; 2]. cbn [map].
  right. right. left. reflexivity.
Defined.

(** X3: every value that a run of [upload_large_file] on a [bytes]
    object (fewer than [2 ^ 63] bytes) moves the progress bar to lies
    in [(0, 1]], whatever the replies of the service. *)
Theorem progress_in_unit_interval svc token file folder_id v :
  size file < 2 ^ 63 ->
  In v (progress_values
          (trace (upload_large_file svc token file folder_id))) ->
  (0 < v <= 1)%Q.
Proof.
  intros Hs Hin.
  destruct (upload_prefix svc token file folder_id)
    as (u & n & k & k' & Hk & Hkn & C & _ & Hv).
  rewrite Hv in Hin. apply in_map_iff in Hin as (i & <- & Hi).
  apply in_range in Hi. specialize (C ltac:(lia)).
  pose proof (size_nonneg file) as N.
  pose proof (chunk_count_bound (size file) n ltac:(lia) C) as B.
  destruct (truediv_unit_interval (i + 1) n) as (q & E & Hq); try lia.
  unfold progress_value. now rewrite E.
Qed.

Lemma progress_in_unit_interval_witness :
  (0 < progress_value 3 0 <= 1)%Q.
Proof.
  assert (size (file_of_size 819200) = 819200) as Hs
      by (apply size_file_of_size; lia).
  assert (size (file_of_size 819200) < 2 ^ 63) as H
      by (rewrite Hs; reflexivity).
  assert (chunk_count (size (file_of_size 819200)) CHUNK_SIZE = Returned 3)
    as C by (rewrite Hs; exact chunk_count_scenario).
  apply (progress_in_unit_interval accepting "token" (file_of_size 819200)
           "root" _ H).
  destruct (upload_all_ok accepting "token" (file_of_size 819200) "root"
              upload_endpoint 3 eq_refl C ltac:(lia) (fun i _ => eq_refl))
    as (r & _ & ->).
  cbn [trace fst]. unfold opening_events.
  rewrite progress_values_app, progress_values_chunk_events.
  cbn [progress_values app].
  change (Py.range 3) with [0; 1; 2]. cbn [map]. left. reflexivity.
Defined.

(** ** How a run of [upload_large_file] can end *)

Section Ends.

Variables (cs : Z) (svc : service) (upload_url : json).
Variables (data : list byte) (chunks : Z).

Local Abbreviation loop := (chunk_loop cs svc upload_url data chunks).

(** The loop ends with [r] bound to the accepted reply to its last
    index, or stops at a refused chunk whose body is JSON, or raises
    at a call without reply or at a refused chunk whose body is not
    JSON. *)
Lemma chunk_loop_ends idx : forall r0,
  (forall i, In i idx -> 0 <= i < chunks) ->
  match result (loop idx r0) with
  | Returned r =>
      (idx = [] /\ r = r0) \/
      (exists r', r = Some r' /\ idx <> [] /\
                  chunk_reply svc (last idx 0) = Answer r' /\
                  Py.in_tuple (status_code r') success_statuses = true)
  | Stopped =>
      exists j r', In j idx /\ chunk_reply svc j = Answer r' /\
                   Py.in_tuple (status_code r') success_statuses = false /\
                   body_json r' <> None
  | Raised e =>
      (e = RequestException /\
       exists j, In j idx /\ chunk_reply svc j = Failure) \/
      (e = JSONDecodeError /\
       exists j r', In j idx /\ chunk_reply svc j = Answer r' /\
                    Py.in_tuple (status_code r') success_statuses = false /\
                    body_json r' = None)
  end.
Proof.
  induction idx as [|i idx IH]; intros r0 H.
  - left. now split.
  - rewrite chunk_loop_cons, chunk_body_eq.
    destruct (chunk_reply svc i) as [r|] eqn:Er.
    + destruct (Py.in_tuple (status_code r) success_statuses) eqn:Es.
      * destruct (PyFloatFacts.truediv_le_1_returns (i + 1) chunks)
          as [v ->]; [specialize (H i ltac:(now left)); lia|].
        cbn [bind]. specialize (IH (Some r) ltac:(intros j Hj; apply H;
                                                  now right)).
        destruct (loop idx (Some r)) as [t [rf| |e]];
          cbn [result snd] in *.
        -- right. destruct IH as [[-> ->]|(r' & -> & Hne & El & Eo)].
           ++ exists r. repeat split; try assumption. discriminate.
           ++ exists r'. repeat split; try assumption; [discriminate|].
              destruct idx; [congruence|exact El].
        -- destruct IH as (j & r' & Hj & IH). exists j, r'.
           split; [now right|exact IH].
        -- destruct IH as [[-> (j & Hj & IH)]|[-> (j & r' & Hj & IH)]].
           ++ left. split; [reflexivity|]. exists j. split; [now right|].
              exact IH.
           ++ right. split; [reflexivity|]. exists j, r'.
              split; [now right|exact IH].
      * destruct (body_json r) eqn:Eb; cbn [bind result snd].
        -- exists i, r. repeat split; try assumption; [now left|].
           rewrite Eb. discriminate.
        -- right. split; [reflexivity|]. exists i, r.
           repeat split; try assumption. now left.
    + cbn [bind result snd]. left. split; [reflexivity|].
      exists i. split; [now left|assumption].
Qed.

End Ends.

Lemma chunk_count_returns size :
  0 <= size < 2 ^ 63 ->
  exists n, chunk_count size CHUNK_SIZE = Returned n /\
            (1 <= size -> 1 <= n).
Proof.
  intros H. destruct (Z.eq_dec size 0) as [->|Hne].
  - exists 0. split; [reflexivity|lia].
  - destruct (PyFloatFacts.truediv_returns size CHUNK_SIZE 45)
      as [q E]; try lia; try reflexivity.
    { change (CHUNK_SIZE * 2 ^ 45) with 11529215046068469760.
      change (2 ^ 63) with 9223372036854775808 in H. lia. }
    exists (PyFloat.ceil q). unfold chunk_count. rewrite E.
    split; [reflexivity|]. intros _.
    destruct (Z_le_gt_dec CHUNK_SIZE size) as [L|L].
    + apply (PyFloatFacts.ceil_truediv_ge_1 size CHUNK_SIZE);
        [split; [reflexivity|assumption]|assumption].
    + destruct (PyFloatFacts.ceil_truediv_exact size CHUNK_SIZE)
        as (q' & E' & C); [unfold CHUNK_SIZE in L;
                           change (2 ^ 53) with 9007199254740992; lia
                          |split; reflexivity || discriminate|].
      rewrite E in E'. injection E' as <-. rewrite C.
      pose proof (PyFloatFacts.ceil_quotient_bounds size CHUNK_SIZE
                    ltac:(reflexivity)) as B.
      unfold CHUNK_SIZE in *. nia.
Qed.

(** X4: a run of [upload_large_file] on a [bytes] object (fewer than
    [2 ^ 63] bytes) ends in one of these ways only: it returns the
    response to the last chunk, whose status is in [(200, 201, 202)];
    it stops in [st.stop()] at a chunk whose reply has another status
    and a JSON body; or it raises [RequestException] (a call without
    reply), [JSONDecodeError] (a body that is not JSON), [TypeError] or
    [KeyError "uploadUrl"] (a session without endpoint), or, for the
    empty file only, [UnboundLocalError]. *)
Theorem upload_ends svc token file folder_id :
  size file < 2 ^ 63 ->
  match result (upload_large_file svc token file folder_id) with
  | Returned r =>
      Py.in_tuple (status_code r) success_statuses = true /\
      1 <= size file
  | Stopped =>
      exists j r, 0 <= j /\ chunk_reply svc j = Answer r /\
                  Py.in_tuple (status_code r) success_statuses = false /\
                  body_json r <> None
  | Raised e =>
      e = RequestException \/ e = JSONDecodeError \/ e = TypeError \/
      e = KeyError "uploadUrl" \/
      (e = UnboundLocalError "r" /\ size file = 0)
  end.
Proof.
  intros Hs. pose proof (size_nonneg file) as N.
  unfold upload_large_file. rewrite upload_large_file_with_eq. cbv zeta.
  destruct (session_endpoint svc) as [u| |e] eqn:E; cbn [result snd].
  - destruct (chunk_count_returns (size file) ltac:(lia)) as (n & C & Hn).
    rewrite C.
    pose proof (chunk_loop_ends CHUNK_SIZE svc u (getvalue file) n
                  (Py.range n) None
                  ltac:(intros i Hi; now apply in_range in Hi)) as L.
    destruct (chunk_loop CHUNK_SIZE svc u (getvalue file) n (Py.range n)
                None) as [t [[r|]| |e]]; cbn [result snd] in *.
    + destruct L as [[_ [=]]|(r' & [= <-] & Hne & _ & Ho)].
      split; [assumption|].
      destruct (Z_le_gt_dec 1 (size file)); [assumption|].
      assert (size file = 0) as Z0 by lia. rewrite Z0 in C.
      change (chunk_count 0 CHUNK_SIZE) with (@Returned Z 0) in C.
      injection C as <-. now destruct Hne.
    + do 4 right. split; [reflexivity|].
      destruct L as [[Hr _]|(r' & [=] & _)].
      destruct (Z_le_gt_dec 1 (size file)) as [P|P]; [|lia].
      specialize (Hn P).
      assert (In 0 (Py.range n)) as Hin by (apply in_range; lia).
      rewrite Hr in Hin. destruct Hin.
    + destruct L as (j & r' & Hj & L). exists j, r'.
      apply in_range in Hj. split; [lia|exact L].
    + destruct L as [[-> _]|[-> _]]; auto.
  - now destruct (session_endpoint_not_stopped svc).
  - destruct (session_endpoint_raises svc e E) as [|[|[|]]]; auto.
Qed.

Lemma upload_ends_witness :
  match result (upload_large_file accepting "token" (file_of_size 819200)
                  "root") with
  | Returned r =>
      Py.in_tuple (status_code r) success_statuses = true /\
      1 <= size (file_of_size 819200)
  | Stopped =>
      exists j r, 0 <= j /\ chunk_reply accepting j = Answer r /\
                  Py.in_tuple (status_code r) success_statuses = false /\
                  body_json r <> None
  | Raised e =>
      e = RequestException \/ e = JSONDecodeError \/ e = TypeError \/
      e = KeyError "uploadUrl" \/
      (e = UnboundLocalError "r" /\ size (file_of_size 819200) = 0)
  end.
Proof.
  apply upload_ends. rewrite size_file_of_size by lia. reflexivity.
Defined.

(** ** What the upload branch shows *)

Section Shown.

Variables (cs : Z) (svc : service) (upload_url : json).
Variables (data : list byte) (chunks : Z).

(** The loop shows progress, and at a refused chunk its own message
    and the body of the reply; nothing else. *)
Lemma chunk_loop_shown idx : forall r0 c,
  In c (shown (trace (chunk_loop cs svc upload_url data chunks idx r0))) ->
  match c with
  | progress_progress _ | st_json _ => True
  | st_error msg => msg = "Chunk upload failed"%string
  | _ => False
  end.
Proof.
  induction idx as [|i idx IH]; intros r0 c; [intros []|].
  rewrite chunk_loop_cons, chunk_body_eq.
  destruct (chunk_reply svc i) as [r|]; [|intros []].
  destruct (Py.in_tuple (status_code r) success_statuses).
  - destruct (PyFloat.truediv (i + 1) chunks) as [v| |e]; [|intros []..].
    cbn [bind]. specialize (IH (Some r) c).
    destruct (chunk_loop cs svc upload_url data chunks idx (Some r))
      as [t o]. cbn [trace fst app shown] in *.
    intros [<-|H]; [exact I|now apply IH].
  - destruct (body_json r); cbn.
    + intros [<-|[<-|[]]]; [reflexivity|exact I].
    + intros [<-|[]]. reflexivity.
Qed.

End Shown.

Lemma upload_shown svc token file folder_id c :
  In c (shown (trace (upload_large_file svc token file folder_id))) ->
  match c with
  | progress_progress _ | st_json _ | st_progress _ => True
  | st_error msg => msg = "Chunk upload failed"%string
  | _ => False
  end.
Proof.
  unfold upload_large_file. rewrite upload_large_file_with_eq. cbv zeta.
  destruct (session_endpoint svc) as [u| |e]; [|intros []..].
  destruct (chunk_count (size file) CHUNK_SIZE) as [n| |e]; [|intros []..].
  pose proof (chunk_loop_shown CHUNK_SIZE svc u (getvalue file) n
                (Py.range n) None c) as L.
  destruct (chunk_loop CHUNK_SIZE svc u (getvalue file) n (Py.range n) None)
    as [t o]. cbn [trace fst] in *. unfold opening_events.
  cbn [app shown]. intros [<-|H]; [exact I|].
  specialize (L H). now destruct c.
Qed.

(** X5: on a file of more than [4 * 1024 * 1024] bytes the upload
    branch of the script never shows ["Upload failed"]: when
    [upload_large_file] returns, the status of the response it returns
    is in [(200, 201, 202)], so that the branch then shows the success
    message as the last thing and ends normally; and it ends normally
    in no other case. *)
Theorem chunked_branch_shows svc token file folder_id :
  4 * 1024 * 1024 < size file < 2 ^ 63 ->
  let the_run := upload_to_selected_folder svc token file folder_id in
  ~ In (st_error "Upload failed") (shown (trace the_run)) /\
  (result the_run = Returned tt <->
   exists r, result (upload_large_file svc token file folder_id)
             = Returned r) /\
  (result the_run = Returned tt ->
   exists l,
     shown (trace the_run)
     = l ++ [st_success "File uploaded successfully to OneDrive"]).
Proof.
  intros Hs the_run. unfold the_run.
  destruct (route_chunked svc token file folder_id Hs) as [mb ->].
  pose proof (upload_ends svc token file folder_id ltac:(lia)) as Hend.
  pose proof (upload_shown svc token file folder_id
                (st_error "Upload failed")) as Hsh.
  destruct (upload_large_file svc token file folder_id) as [t [r| |e]];
    cbn [result snd trace fst] in *.
  - destruct Hend as [Ho _]. cbn [st bind]. unfold show_outcome.
    rewrite Ho.
    cbn [st bind app trace result fst snd shown]. rewrite shown_app.
    cbn [shown]. repeat split.
    + intros [H|H]; [discriminate|]. apply in_app_or in H as [H|[H|[]]].
      * specialize (Hsh H). discriminate.
      * discriminate.
    + now exists r.
    + intros _. now exists (st_info_file_size mb :: shown t).
  - cbn [st bind app trace result fst snd shown]. repeat split.
    + intros [H|H]; [discriminate|]. specialize (Hsh H). discriminate.
    + discriminate.
    + intros [r H]. discriminate.
    + discriminate.
  - cbn [st bind app trace result fst snd shown]. repeat split.
    + intros [H|H]; [discriminate|]. specialize (Hsh H). discriminate.
    + discriminate.
    + intros [r H]. discriminate.
    + discriminate.
Qed.

Lemma chunked_branch_shows_witness :
  ~ In (st_error "Upload failed")
       (shown (trace (upload_to_selected_folder accepting "token"
                        (file_of_size (4 * 1024 * 1024 + 1)) "root"))).
Proof.
  assert (4 * 1024 * 1024 < size (file_of_size (4 * 1024 * 1024 + 1))
          < 2 ^ 63) as H
      by (rewrite size_file_of_size by lia; split; [lia|reflexivity]).
  exact (proj1 (chunked_branch_shows accepting "token"
                  (file_of_size (4 * 1024 * 1024 + 1)) "root" H)).
Defined.

(** X6: on a file of at most [4 * 1024 * 1024] bytes the upload branch
    sends one request, a PUT of the whole content with the headers
    [Authorization: Bearer <token>] and [Content-Type: <file.type>];
    whatever the status of the response, [simple_upload] returns it,
    and the branch then shows the success message when the status is
    in [(200, 201, 202)], and otherwise ["Upload failed"] followed by
    the JSON body of the response, or raises when this body is not
    JSON. *)
Theorem direct_branch_shows svc token file folder_id r :
  size file <= 4 * 1024 * 1024 ->
  content_reply svc = Answer r ->
  let the_run := upload_to_selected_folder svc token file folder_id in
  exists mb rq,
    PyFloat.truediv (size file) (1024 * 1024) = Returned mb /\
    trace the_run
    = Ui (st_info_file_size mb) :: Sent rq :: Received (Answer r)
        :: map Ui
             (if Py.in_tuple (status_code r) success_statuses
              then [st_success "File uploaded successfully to OneDrive"]
              else st_error "Upload failed"
                     :: match body_json r with
                        | Some j => [st_json j]
                        | None => []
                        end) /\
    result the_run
    = (if Py.in_tuple (status_code r) success_statuses then Returned tt
       else match body_json r with
            | Some _ => Returned tt
            | None => Raised JSONDecodeError
            end) /\
    result (simple_upload svc token file folder_id) = Returned r /\
    meth rq = PUT /\
    body rq = DataBody (getvalue file) /\
    Py.dict_get "Authorization" (headers rq)
    = Some ("Bearer " ++ token)%string /\
    Py.dict_get "Content-Type" (headers rq) = Some (type file).
Proof.
  intros Hs Er the_run. unfold the_run.
  destruct (size_mb_returns file) as [mb E].
  { change (2 ^ 63) with 9223372036854775808. lia. }
  rewrite upload_to_selected_folder_eq, E.
  destruct (Z.leb_spec (size file) (4 * 1024 * 1024)); [|lia].
  unfold simple_upload, requests. rewrite Er.
  exists mb. eexists. split; [reflexivity|].
  cbn [bind st lift app]. unfold show_outcome, response_json.
  destruct (Py.in_tuple (status_code r) success_statuses);
    [|destruct (body_json r)]; cbn; repeat split; reflexivity.
Qed.

Lemma direct_branch_shows_witness :
  result (upload_to_selected_folder accepting "token"
            (file_of_size (4 * 1024 * 1024)) "root")
  = Returned tt.
Proof.
  assert (size (file_of_size (4 * 1024 * 1024)) <= 4 * 1024 * 1024) as H
      by (rewrite size_file_of_size; lia).
  destruct (direct_branch_shows accepting "token"
              (file_of_size (4 * 1024 * 1024)) "root"
              (mkresponse 201 (Some JNull)) H eq_refl)
    as (mb & rq & _ & _ & R & _).
  exact R.
Defined.

(** ** The folder helpers *)

Lemma item_getitem v key :
  PyVal.item v key = match getitem v key with
                     | Returned x => inr x
                     | Stopped => inl (Core TypeError)
                     | Raised e => inl (Core e)
                     end.
Proof.
  destruct v; try reflexivity. cbn.
  now destruct (Py.dict_get key fields).
Qed.

Lemma keep_folders_objects items :
  forallb is_object items = true ->
  keep_folders items = inr (filter (has_key "folder") items).
Proof.
  induction items as [|i items IH]; [reflexivity|].
  cbn [forallb]. intros H. apply andb_prop in H as [Hi Hr].
  cbn [keep_folders filter]. rewrite (IH Hr).
  destruct i; try discriminate. cbn.
  now destruct (Py.dict_get "folder" fields).
Qed.

(** X7: when the reply to [list_folders] has a status outside
    400..599 and its body is a JSON object whose ["value"] is a list of
    objects, [list_folders] returns exactly the objects of that list
    that have a ["folder"] field, in the order of the list; when the
    object has no ["value"] field it returns the empty list. *)
Theorem list_folders_keeps_folders token parent_id r fields items :
  (400 <=? status_code r) && (status_code r <? 600) = false ->
  body_json r = Some (JObj fields) ->
  Py.dict_get "value" fields = Some (JArr items) \/
  Py.dict_get "value" fields = None /\ items = [] ->
  forallb is_object items = true ->
  list_folders token parent_id (Answer r)
  = inr (filter (has_key "folder") items).
Proof.
  intros Hs Hb Hv Ho. unfold list_folders, raise_for_status, response_value.
  cbn [answered]. rewrite Hs, Hb. cbn [PyVal.get].
  destruct Hv as [->|[-> ->]]; [|reflexivity].
  cbn [PyVal.iter]. now apply keep_folders_objects.
Qed.

Lemma list_folders_keeps_folders_witness :
  list_folders "token" (JStr "root")
    (Answer (mkresponse 200
               (Some (JObj [("value"%string,
                             JArr [JObj [("name"%string, JStr "a.txt");
                                         ("file"%string, JObj [])];
                                   JObj [("name"%string, JStr "Photos");
                                         ("folder"%string, JObj [])]])]))))
  = inr [JObj [("name"%string, JStr "Photos"); ("folder"%string, JObj [])]].
Proof.
  eapply (list_folders_keeps_folders "token" (JStr "root")
            (mkresponse 200 _) _
            [JObj [("name"%string, JStr "a.txt"); ("file"%string, JObj [])];
            JObj [("name"%string, JStr "Photos");
                  ("folder"%string, JObj [])]]).
  - reflexivity.
  - reflexivity.
  - left. reflexivity.
  - reflexivity.
Defined.

(** ** The folder browser *)

Lemma last_snoc {A : Type} (l : list A) x d : last (l ++ [x]) d = x.
Proof. apply last_last. Qed.

Lemma snoc_not_nil {A : Type} (l : list A) x : l ++ [x] <> [].
Proof. now destruct l. Qed.



(** X9: after a run that has appended the current folder to the
    breadcrumb (a folder was selected or created), a run in which
    "Go Back" is clicked and the folders can be listed puts the
    current folder and the breadcrumb back to what they were before,
    whatever else is in the widgets, and asks for a rerun. *)
Theorem enter_then_back token s w1 w2 :
  let entered := state_after (browse token (Some s) w1) in
  breadcrumb entered = breadcrumb s ++ [current_folder s] ->
  go_back w2 = true ->
  (exists folders,
     list_folders token (current_folder entered) (listing w2)
     = inr folders) ->
  state_after (browse token (Some entered) w2) = s /\
  ending (browse token (Some entered) w2) = Rerun /\
  calls (browse token (Some entered) w2)
  = [list_folders_call token (current_folder entered)].
Proof.
  intros entered Hb Hg (folders & L). clearbody entered. unfold browse.
  rewrite L, Hb, Hg.
  destruct (breadcrumb s ++ [current_folder s]) eqn:E;
    [now destruct (snoc_not_nil _ _ E)|].
  rewrite <- E, last_snoc, removelast_last. cbn. now destruct s.
Qed.

Lemma enter_then_back_witness :
  let photos :=
    JObj [("name"%string, JStr "Photos"); ("folder"%string, JObj []);
          ("id"%string, JStr "42")] in
  let listed :=
    Answer (mkresponse 200 (Some (JObj [("value"%string, JArr [photos])]))) in
  let w1 := mkwidgets false "" (JStr "Photos") listed Failure in
  let w2 := mkwidgets true "" JNull listed Failure in
  let s := mkstate (JStr "root") [] in
  state_after (browse "token" (Some s) w1) = mkstate (JStr "42") [JStr "root"]
  /\ state_after
       (browse "token" (Some (state_after (browse "token" (Some s) w1))) w2)
     = s.
Proof.
  intros photos listed w1 w2 s. split; [reflexivity|].
  apply (enter_then_back "token" s w1 w2).
  - reflexivity.
  - reflexivity.
  - eexists. reflexivity.
Defined.

(** The bottom of the breadcrumb is ["root"], and with an empty
    breadcrumb the current folder is ["root"]. *)
Lemma browse_keeps_root token before w :
  match before with
  | None => True
  | Some s =>
      match breadcrumb s with
      | [] => current_folder s = JStr "root"
      | b :: _ => b = JStr "root"
      end
  end ->
  let s' := state_after (browse token before w) in
  match breadcrumb s' with
  | [] => current_folder s' = JStr "root"
  | b :: _ => b = JStr "root"
  end.
Proof.
  intros Inv.
  set (s := match before with
            | Some s => s
            | None => mkstate (JStr "root") []
            end).
  assert (match breadcrumb s with
          | [] => current_folder s = JStr "root"
          | b :: _ => b = JStr "root"
          end) as Is by (destruct before; [exact Inv|reflexivity]).
  assert (match breadcrumb s ++ [current_folder s] with
          | [] => False
          | b :: _ => b = JStr "root"
          end) as Ip by (destruct (breadcrumb s); exact Is).
  unfold browse. fold s.
  destruct (list_folders token (current_folder s) (listing w));
    [exact Is|].
  destruct (breadcrumb s) as [|b bc] eqn:Eb.
  - destruct (PyVal.truthy (new_folder w)).
    + destruct (create_folder _ _ _ _); [cbn; now rewrite Eb|exact Ip].
    + destruct (folder_names l); [cbn; now rewrite Eb|].
      destruct (negb _); [|cbn; now rewrite Eb].
      destruct (next_named l (choice w)); [cbn; now rewrite Eb|].
      destruct (PyVal.item j "id"); exact Ip.
  - destruct (go_back w).
    + cbn [state_after breadcrumb current_folder].
      destruct bc as [|b' bc]; [exact Is|].
      cbn. exact Is.
    + destruct (PyVal.truthy (new_folder w)).
      * destruct (create_folder _ _ _ _); [cbn; now rewrite Eb|exact Ip].
      * destruct (folder_names l); [cbn; now rewrite Eb|].
        destruct (negb _); [|cbn; now rewrite Eb].
        destruct (next_named l (choice w)); [cbn; now rewrite Eb|].
        destruct (PyVal.item j "id"); exact Ip.
Qed.

Lemma browse_all_inv token ws : forall before,
  match before with
  | None => True
  | Some s =>
      match breadcrumb s with
      | [] => current_folder s = JStr "root"
      | b :: _ => b = JStr "root"
      end
  end ->
  match browse_all token before ws with
  | None => ws = [] /\ before = None
  | Some s =>
      match breadcrumb s with
      | [] => current_folder s = JStr "root"
      | b :: _ => b = JStr "root"
      end
  end.
Proof.
  induction ws as [|w ws IH]; intros before Inv.
  - destruct before; [exact Inv|now split].
  - cbn [browse_all].
    specialize (IH (Some (state_after (browse token before w)))
                  (browse_keeps_root token before w Inv)).
    destruct (browse_all token _ ws); [exact IH|].
    now destruct IH.
Qed.

(** X10: after any series of runs of the browser from a fresh session,
    whatever the user did and the service replied, the breadcrumb, when
    it is not empty, has ["root"] as its first entry, and when it is
    empty the current folder is ["root"]. *)
Theorem browse_all_keeps_root token ws :
  match browse_all token None ws with
  | None => ws = []
  | Some s =>
      match breadcrumb s with
      | [] => current_folder s = JStr "root"
      | b :: _ => b = JStr "root"
      end
  end.
Proof.
  pose proof (browse_all_inv token ws None I) as G.
  destruct (browse_all token None ws); [exact G|]. now destruct G.
Qed.

Lemma list_folders_any_parent token token' p p' rp :
  list_folders token p rp = list_folders token' p' rp.
Proof. reflexivity. Qed.

Lemma backs_to_root token backs : forall s,
  match breadcrumb s with
  | [] => current_folder s = JStr "root"
  | b :: _ => b = JStr "root"
  end ->
  List.length backs = List.length (breadcrumb s) ->
  (forall w, In w backs ->
             go_back w = true /\
             exists folders,
               list_folders token (JStr "root") (listing w) = inr folders) ->
  browse_all token (Some s) backs = Some (mkstate (JStr "root") []).
Proof.
  induction backs as [|w backs IH]; intros s Inv Hlen Hw.
  - destruct s as [cur [|b bc]]; [|discriminate]. cbn in *. now subst.
  - cbn [browse_all].
    destruct (Hw w ltac:(now left)) as (Hg & folders & L).
    rewrite (list_folders_any_parent token token (JStr "root")
               (current_folder s)) in L.
    assert (state_after (browse token (Some s) w)
            = mkstate (last (breadcrumb s) JNull)
                (removelast (breadcrumb s))) as E.
    { unfold browse. rewrite L, Hg.
      destruct (breadcrumb s); [discriminate|reflexivity]. }
    apply IH.
    + apply (browse_keeps_root token (Some s) w Inv).
    + rewrite E. cbn [breadcrumb]. cbn [List.length] in Hlen.
      destruct (breadcrumb s) as [|b bc] eqn:Eb; [discriminate|].
      pose proof (@exists_last _ (b :: bc) ltac:(discriminate))
        as (bc' & x & Ex).
      rewrite Ex, removelast_last.
      rewrite Ex, length_app in Hlen. cbn in Hlen. lia.
    + intros w' H'. apply Hw. now right.
Qed.

(** X11: from any state that the browser can be in after a series of
    runs from a fresh session, clicking "Go Back" as many times as the
    breadcrumb is long, with listings that succeed, ends with the
    current folder ["root"] and the empty breadcrumb. *)
Theorem back_to_root token ws backs s :
  browse_all token None ws = Some s ->
  List.length backs = List.length (breadcrumb s) ->
  (forall w, In w backs ->
             go_back w = true /\
             exists folders,
               list_folders token (JStr "root") (listing w) = inr folders) ->
  browse_all token (Some s) backs = Some (mkstate (JStr "root") []).
Proof.
  intros R Hlen Hw. apply backs_to_root; try assumption.
  pose proof (browse_all_inv token ws None I) as G.
  rewrite R in G. exact G.
Qed.

Lemma back_to_root_witness :
  let photos :=
    JObj [("name"%string, JStr "Photos"); ("folder"%string, JObj []);
          ("id"%string, JStr "42")] in
  let listed :=
    Answer (mkresponse 200 (Some (JObj [("value"%string, JArr [photos])]))) in
  let enter := mkwidgets false "" (JStr "Photos") listed Failure in
  let back := mkwidgets true "" JNull listed Failure in
  browse_all "token" (Some (mkstate (JStr "42") [JStr "root"; JStr "42"]))
    [back; back]
  = Some (mkstate (JStr "root") []).
Proof.
  intros photos listed enter back.
  apply (back_to_root "token" [enter; enter] [back; back]).
  - reflexivity.
  - reflexivity.
  - intros w [<-|[<-|[]]]; (split; [reflexivity|eexists; reflexivity]).
Defined.

(** ** Selecting a folder *)

Lemma next_named_first choice pre : forall f post names n,
  folder_names (pre ++ f :: post) = inr names ->
  (forall g m, In g pre -> PyVal.item g "name" = inr m ->
               PyVal.eq m choice = false) ->
  PyVal.item f "name" = inr n ->
  PyVal.eq n choice = true ->
  next_named (pre ++ f :: post) choice = inr f.
Proof.
  induction pre as [|g pre IH]; intros f post names n Hn Hpre Hf He.
  - cbn. now rewrite Hf, He.
  - cbn [app folder_names next_named] in *.
    destruct (PyVal.item g "name") as [e|m] eqn:Eg; [discriminate|].
    rewrite (Hpre g m (or_introl eq_refl) Eg).
    destruct (folder_names (pre ++ f :: post)) as [e|names'] eqn:En;
      [discriminate|].
    apply (IH f post names' n); [exact En| |assumption|assumption].
    intros g' m' Hg'. apply Hpre. now right.
Qed.

(** X12: when the folders are listed, "Go Back" is not taken, the text
    input is empty and the selected option is not
    ["(Use this folder)"], the browser moves into the first listed
    folder whose name equals the option, also when a later folder has
    the same name: its ["id"] becomes the current folder, the folder
    left is appended to the breadcrumb, a rerun is asked for, and the
    listing is the only request of the run. *)
Theorem select_enters_first_match token s w pre f post names n id :
  list_folders token (current_folder s) (listing w)
  = inr (pre ++ f :: post) ->
  breadcrumb s = [] \/ go_back w = false ->
  new_folder w = ""%string ->
  PyVal.eq (choice w) (JStr use_this_folder) = false ->
  folder_names (pre ++ f :: post) = inr names ->
  (forall g m, In g pre -> PyVal.item g "name" = inr m ->
               PyVal.eq m (choice w) = false) ->
  PyVal.item f "name" = inr n ->
  PyVal.eq n (choice w) = true ->
  PyVal.item f "id" = inr id ->
  browse token (Some s) w
  = mkrun (mkstate id (breadcrumb s ++ [current_folder s]))
      [list_folders_call token (current_folder s)] Rerun.
Proof.
  intros L Hb Ht Hc Hn Hpre Hf He Hid. unfold browse.
  rewrite L, Ht, Hn, Hc. cbn [PyVal.truthy negb].
  rewrite (next_named_first (choice w) pre f post names n Hn Hpre Hf He).
  rewrite Hid.
  destruct Hb as [Hb|Hb]; rewrite Hb; [reflexivity|].
  now destruct (breadcrumb s).
Qed.

Lemma select_enters_first_match_witness :
  let first :=
    JObj [("name"%string, JStr "Docs"); ("folder"%string, JObj []);
          ("id"%string, JStr "1")] in
  let second :=
    JObj [("name"%string, JStr "Docs"); ("folder"%string, JObj []);
          ("id"%string, JStr "2")] in
  let listed :=
    Answer (mkresponse 200
              (Some (JObj [("value"%string, JArr [first; second])]))) in
  let w := mkwidgets false "" (JStr "Docs") listed Failure in
  browse "token" (Some (mkstate (JStr "root") [])) w
  = mkrun (mkstate (JStr "1") [JStr "root"])
      [list_folders_call "token" (JStr "root")] Rerun.
Proof.
  intros first second listed w.
  apply (select_enters_first_match "token" (mkstate (JStr "root") []) w
           [] first [second] [JStr "Docs"; JStr "Docs"] (JStr "Docs")
           (JStr "1")).
  - reflexivity.
  - now left.
  - reflexivity.
  - reflexivity.
  - reflexivity.
  - intros g m [].
  - reflexivity.
  - reflexivity.
  - reflexivity.
Defined.

(** ** Creating a folder *)

(** X13: when the listing succeeds, "Go Back" is not taken and the
    text input holds a name, the browser posts one creation request to
    the children of the current folder, the collection it has just
    listed, with the typed name and the conflict behaviour ["rename"];
    when the reply has a status outside 400..599 and a JSON object
    with an ["id"], that value becomes the current folder and the
    folder left is appended to the breadcrumb; when the status is in
    400..599 the run ends in [HTTPError] and the state is unchanged.
    The selected option plays no part. *)
Theorem create_then_enter token s w folders r :
  list_folders token (current_folder s) (listing w) = inr folders ->
  breadcrumb s = [] \/ go_back w = false ->
  PyVal.truthy (new_folder w) = true ->
  creation w = Answer r ->
  let made := create_folder_call token (current_folder s) (new_folder w) in
  calls (browse token (Some s) w)
  = [list_folders_call token (current_folder s); made] /\
  call_url made = call_url (list_folders_call token (current_folder s)) /\
  call_method made
  = POST_JSON
      (JObj [("name"%string, JStr (new_folder w));
             ("folder"%string, JObj []);
             ("@microsoft.graph.conflictBehavior"%string, JStr "rename")]) /\
  ((400 <=? status_code r) && (status_code r <? 600) = true ->
   state_after (browse token (Some s) w) = s /\
   ending (browse token (Some s) w) = Crashed (HTTPError (status_code r))) /\
  (forall fields id,
     (400 <=? status_code r) && (status_code r <? 600) = false ->
     body_json r = Some (JObj fields) ->
     Py.dict_get "id" fields = Some id ->
     state_after (browse token (Some s) w)
     = mkstate id (breadcrumb s ++ [current_folder s]) /\
     ending (browse token (Some s) w) = Rerun).
Proof.
  intros L Hb Ht Hc made.
  assert (match breadcrumb s with [] => false | _ :: _ => go_back w end
          = false) as G.
  { destruct Hb as [Hb|Hb]; rewrite Hb; [reflexivity|].
    now destruct (breadcrumb s). }
  unfold browse. rewrite L, G, Ht.
  unfold create_folder, raise_for_status, response_value. rewrite Hc.
  cbn [answered]. repeat split.
  - destruct ((400 <=? status_code r) && (status_code r <? 600));
      [reflexivity|].
    destruct (body_json r) as [doc|]; [|reflexivity].
    now destruct (PyVal.item doc "id").
  - now rewrite H.
  - now rewrite H.
  - rewrite H, H0. cbn [PyVal.item]. now rewrite H1.
  - rewrite H, H0. cbn [PyVal.item]. now rewrite H1.
Qed.

Lemma create_then_enter_witness :
  let listed :=
    Answer (mkresponse 200 (Some (JObj [("value"%string, JArr [])]))) in
  let made :=
    Answer (mkresponse 201 (Some (JObj [("id"%string, JStr "77")]))) in
  let w := mkwidgets false "Holiday" JNull listed made in
  state_after (browse "token" (Some (mkstate (JStr "root") [])) w)
  = mkstate (JStr "77") [JStr "root"] /\
  ending (browse "token" (Some (mkstate (JStr "root") [])) w) = Rerun.
Proof.
  intros listed made w.
  destruct (create_then_enter "token" (mkstate (JStr "root") []) w []
              (mkresponse 201 (Some (JObj [("id"%string, JStr "77")])))
              eq_refl (or_introl eq_refl) eq_refl eq_refl)
    as (_ & _ & _ & _ & H).
  exact (H [("id"%string, JStr "77")] (JStr "77") eq_refl eq_refl eq_refl).
Defined.

(** ** Authentication *)


